(** * Outreach campaign engine (app.py): a shallow embedding and its properties

    The development follows [src/app.py].  The Streamlit session state is a
    record, the background worker of [start] is a program-counter machine
    whose labels are the source lines of its shared-state accesses, and the
    buttons of the interface thread ([pause], [resume], [stop]) interleave
    with the worker's steps in an event list.

    Conventions of the embedding:
    - time is an integer clock in centiseconds (the sleeps of the worker are
      0.2 s, 0.25 s and 0.5 s; [round(elapsed, 2)] keeps hundredths);
    - Python floats that the worker only adds, compares or averages are exact
      rationals ([Q]);
    - the network, the random generator and the file system are an
      environment [Env] that the theorems quantify over;
    - the [profileUrl] column holds strings. *)

From Stdlib Require Import ZArith QArith Qround Lqa String List Lia.
From stdpp Require Import base gmap strings list pretty.

Open Scope Z_scope.

(** ** Data model *)

(** One line of the uploaded CSV ([df] has the columns [profileUrl] and
    [message]). *)
Record Row := mkRow { profileUrl : string; message : string }.

Inductive Status := START | SUCCESS | ERROR | WAIT | INFO.

(** A row of [st.session_state.logs].  [log_time] is the clock reading that
    the source formats with [isoformat]. *)
Record LogRow := mkLog {
  log_time : Z;
  log_profileUrl : option string;
  log_status : Status;
  log_details : string;
  elapsed_sec : option Q
}.

(** The sidebar configuration (module-level globals of the script). *)
Record Config := mkConfig {
  api_key : string;
  agent_id : string;
  start_hour : Z;
  end_hour : Z;
  min_delay : Z;
  max_delay : Z;
  extended_break_chance : Z;
  extended_break_min : Z;
  extended_break_max : Z
}.

(** What the worker reads of [datetime.now()]: [now.weekday()] (Monday is 0)
    and [now.hour]. *)
Record datetime := mkDatetime { weekday : Z; hour : Z }.

(** The clock counts centiseconds from a Monday, 00:00 local time. *)
Definition datetime_now (clock : Z) : datetime :=
  {| weekday := (clock / 8640000) mod 7; hour := (clock / 360000) mod 24 |}.

(** [st.session_state] *)
Record SessionState := mkSS {
  df : option (list Row);
  processed_profiles : gset string;
  logs : list LogRow;
  is_running : bool;
  is_paused : bool;
  is_stopped : bool;
  start_time : option Z;
  completed : Z;
  total : Z;
  avg_secs : option Q;
  pause_event : bool;   (* set means RUNNING; clear means PAUSED *)
  stop_event : bool
}.

(** The content of [processed_profiles.json]. *)
Inductive FileState :=
| NoFile
| JsonArray (l : list string)
| Garbage.

(** How one [open(PROCESSED_FILE, "w")] / [json.dump] goes: it succeeds,
    [open] raises (the file is left as it was), or the write raises after
    the file was truncated. *)
Inductive WriteOutcome := Written | OpenRaised | DumpRaised.

(** ** The Action API as the code sees it *)

(** A Python exception; the only thing [launch_phantom] asks of it is whether
    it is a [requests.exceptions.RequestException]. *)
Record Exn := mkExn { is_request_exception : bool; exn_str : string }.

(** The value of [resp.json()]: a dict (values kept as their [str()]
    rendering, [None] for JSON null) or a JSON value that is not a dict. *)
Inductive json :=
| JDict (fields : list (string * option string))
| JNotDict.

Record Response := mkResponse {
  status_code : Z;
  text : string;
  resp_json : json + Exn     (* what [resp.json()] returns or raises *)
}.

Inductive PostOutcome :=
| Responded (r : Response)
| PostRaised (e : Exn).

Record LaunchArguments := mkLaunchArguments {
  specificProfileUrl : string;
  arg_message : string;
  arg_delay : Z;
  maxRequestsPerDay : Z;
  randomizeDelay : bool
}.

Record Request := mkRequest {
  req_url : string;
  req_headers : list (string * string);
  req_arguments : LaunchArguments;
  req_timeout : Z
}.

(** The dict returned by [launch_phantom]. *)
Inductive Res :=
| Ok (data : json)      (* {"ok": True, "data": ...} *)
| Err (error : string). (* {"ok": False, "error": ...} *)

(** ** Environment *)

Record Env := mkEnv {
  (** the n-th [requests.post]: what comes back, and after how many
      centiseconds *)
  http_post : nat -> Request -> PostOutcome * N;
  (** the n-th draw of the [random] module's generator *)
  entropy : nat -> N;
  (** the n-th write of the ledger file *)
  file_write : nat -> WriteOutcome
}.

(** ** The [random] module *)

(** [random.random()]: a float k * 2^-53 in [0, 1). *)
Definition random_random (k : N) : Q :=
  Z.of_N (k mod 9007199254740992) # 9007199254740992.

(** [random.uniform(a, b)] is [a + (b - a) * random()]. *)
Definition random_uniform (a b : Z) (k : N) : Q :=
  (inject_Z a + (inject_Z b - inject_Z a) * random_random k)%Q.

(** [random.randint(a, b)]: an integer of [a .. b], both ends included. *)
Definition random_randint (a b : Z) (k : N) : Z :=
  a + Z.of_N k mod (b - a + 1).

(** ** Helpers of the script *)

Definition load_processed_profiles_from_disk (f : FileState) : gset string :=
  match f with
  | JsonArray l => list_to_set l
  | NoFile => ∅        (* except FileNotFoundError *)
  | Garbage => ∅       (* except Exception *)
  end.

(** [save_processed_profiles_to_disk]: every exception is swallowed
    ([except Exception: pass]); the function returns nothing, so all it
    leaves behind is the file. *)
Definition save_processed_profiles_to_disk
    (s : gset string) (o : WriteOutcome) (f : FileState) : FileState :=
  match o with
  | Written => JsonArray (elements s)
  | OpenRaised => f
  | DumpRaised => Garbage
  end.

Definition is_within_working_hours (cfg : Config) (now : datetime) : bool :=
  if 5 <=? weekday now then false
  else (start_hour cfg <=? hour now) && (hour now <? end_hour cfg).

Definition launch_url (agent : string) : string :=
  "https://api.phantombuster.com/api/v2/agents/" +:+ agent +:+ "/launch".

Definition launch_request
    (key agent profile_url msg : string) (k : N) : Request :=
  {| req_url := launch_url agent;
     req_headers := [("Content-Type", "application/json");
                     ("X-Phantombuster-Key-1", key)]%string;
     req_arguments :=
       {| specificProfileUrl := profile_url;
          arg_message := msg;
          arg_delay := random_randint 3 8 k;
          maxRequestsPerDay := 20;
          randomizeDelay := true |};
     req_timeout := 30 |}.

(** The [try] block of [launch_phantom] on what [requests.post] did: the
    result dict, or the exception that leaves the function. *)
Definition classify (o : PostOutcome) : Res + Exn :=
  match o with
  | Responded resp =>
      if status_code resp =? 200 then
        match resp_json resp with
        | inl d => inl (Ok d)
        | inr e =>
            if is_request_exception e
            then inl (Err ("Network error: " +:+ exn_str e))
            else inr e
        end
      else inl (Err ("API Error: " +:+ pretty (status_code resp)
                       +:+ " - " +:+ text resp))
  | PostRaised e =>
      if is_request_exception e
      then inl (Err ("Network error: " +:+ exn_str e))
      else inr e
  end.

(** [launch_phantom]: [k] is the generator's draw for the [delay] argument,
    [post] the network.  Returns the request sent, the time taken and the
    outcome. *)
Definition launch_phantom
    (key agent profile_url msg : string) (k : N)
    (post : Request -> PostOutcome * N) : Request * N * (Res + Exn) :=
  let req := launch_request key agent profile_url msg k in
  let '(o, d) := post req in
  (req, d, classify o).

Definition add_log (r : LogRow) (s : SessionState) : SessionState :=
  {| df := df s; processed_profiles := processed_profiles s;
     logs := logs s ++ [r];
     is_running := is_running s; is_paused := is_paused s;
     is_stopped := is_stopped s; start_time := start_time s;
     completed := completed s; total := total s; avg_secs := avg_secs s;
     pause_event := pause_event s; stop_event := stop_event s |}.



(** The status line of the dashboard. *)
Inductive ControlState := Running | Paused | Stopped | Idle.

Definition status (s : SessionState) : ControlState :=
  if is_running s && negb (is_paused s) then Running
  else if is_running s && is_paused s then Paused
  else if is_stopped s then Stopped
  else Idle.

(** ** The worker thread of [start]

    A label names the source line of the next access to shared state (a flag
    read, a locked update, a sleep or the network call); the local
    computation up to the following access belongs to the same step. *)
Inductive Pc :=
| L208                (* for ... in rows.iterrows(): if stop_event.is_set() *)
| L212                (* while not pause_event.is_set() *)
| L213                (* time.sleep(0.2); if stop_event.is_set(): break *)
| L216                (* if stop_event.is_set(): break *)
| L220                (* now = datetime.now(); working-hours check *)
| L230 (k : nat)      (* for _ in range(60 * 60 // 2): if stop_event ... *)
| L233 (k : nat)      (* while not pause_event.is_set() *)
| L234 (k : nat)      (* time.sleep(0.2); if stop_event.is_set(): break *)
| L237 (k : nat)      (* time.sleep(0.5) *)
| L238                (* if stop_event.is_set(): break *)
| L241                (* started = time.time(); add_log START *)
| L252                (* res = launch_phantom(...); elapsed *)
| L255                (* if res["ok"]: add_log SUCCESS else add_log ERROR *)
| L264                (* processed_profiles.add; save to disk *)
| L277                (* completed += 1; rolling average *)
| L285                (* delay; extended break *)
| L299                (* while slept < delay: if stop_event.is_set() *)
| L302                (* while not pause_event.is_set() *)
| L303                (* time.sleep(0.2); if stop_event.is_set(): break *)
| L306                (* if stop_event.is_set(): break; sleep(step) *)
| L310                (* if stop_event.is_set(): break *)
| L314                (* ss.is_running = False *)
| Finished            (* the thread has returned *)
| Crashed.            (* an exception left [worker] *)

(** The locals of [worker].  [rows] is [unprocessed_df] and [pos] the number
    of rows the iterator has handed out; [calls] records the requests this
    thread has sent.  A local holds a dummy value until its first
    assignment. *)
Record Thread := mkThread {
  pc : Pc;
  rows : list Row;
  pos : nat;
  row : Row;
  started : Z;
  res : Res;
  elapsed : Z;
  delay : Q;
  slept : Q;
  calls : list Request
}.

(** The session, the worker of the current run and the outside world.  A
    world follows one run: [th] is the thread that [start] created last. *)
Record World := mkWorld {
  ss : SessionState;
  th : option Thread;       (* ss.thread *)
  disk : FileState;
  clock : Z;
  draws : nat;              (* draws taken from the generator *)
  posts : nat;              (* requests.post calls made *)
  writes : nat;             (* writes of the ledger file attempted *)
  naps : nat                (* time.sleep calls made *)
}.

Definition goto (p : Pc) (t : Thread) : Thread :=
  {| pc := p; rows := rows t; pos := pos t; row := row t;
     started := started t; res := res t; elapsed := elapsed t;
     delay := delay t; slept := slept t; calls := calls t |}.

Definition fetch (r : Row) (t : Thread) : Thread :=
  {| pc := pc t; rows := rows t; pos := S (pos t); row := r;
     started := started t; res := res t; elapsed := elapsed t;
     delay := delay t; slept := slept t; calls := calls t |}.

Definition set_started (c : Z) (t : Thread) : Thread :=
  {| pc := pc t; rows := rows t; pos := pos t; row := row t;
     started := c; res := res t; elapsed := elapsed t;
     delay := delay t; slept := slept t; calls := calls t |}.

Definition set_res (r : Res) (t : Thread) : Thread :=
  {| pc := pc t; rows := rows t; pos := pos t; row := row t;
     started := started t; res := r; elapsed := elapsed t;
     delay := delay t; slept := slept t; calls := calls t |}.

Definition sent (q : Request) (e : Z) (t : Thread) : Thread :=
  {| pc := pc t; rows := rows t; pos := pos t; row := row t;
     started := started t; res := res t; elapsed := e;
     delay := delay t; slept := slept t; calls := calls t ++ [q] |}.

Definition set_delay (d : Q) (t : Thread) : Thread :=
  {| pc := pc t; rows := rows t; pos := pos t; row := row t;
     started := started t; res := res t; elapsed := elapsed t;
     delay := d; slept := 0%Q; calls := calls t |}.

Definition set_slept (x : Q) (t : Thread) : Thread :=
  {| pc := pc t; rows := rows t; pos := pos t; row := row t;
     started := started t; res := res t; elapsed := elapsed t;
     delay := delay t; slept := x; calls := calls t |}.

Definition with_th (t : Thread) (w : World) : World :=
  {| ss := ss w; th := Some t; disk := disk w; clock := clock w;
     draws := draws w; posts := posts w; writes := writes w;
     naps := naps w |}.

Definition with_ss (s : SessionState) (w : World) : World :=
  {| ss := s; th := th w; disk := disk w; clock := clock w;
     draws := draws w; posts := posts w; writes := writes w;
     naps := naps w |}.

(** [time.sleep] of [d] centiseconds. *)
Definition nap (d : Z) (w : World) : World :=
  {| ss := ss w; th := th w; disk := disk w; clock := clock w + d;
     draws := draws w; posts := posts w; writes := writes w;
     naps := S (naps w) |}.

(** The network call: time passes, one request and one draw are used. *)
Definition called (d : N) (w : World) : World :=
  {| ss := ss w; th := th w; disk := disk w; clock := clock w + Z.of_N d;
     draws := S (draws w); posts := S (posts w); writes := writes w;
     naps := naps w |}.

Definition drew (n : nat) (w : World) : World :=
  {| ss := ss w; th := th w; disk := disk w; clock := clock w;
     draws := (draws w + n)%nat; posts := posts w; writes := writes w;
     naps := naps w |}.

Definition wrote (f : FileState) (w : World) : World :=
  {| ss := ss w; th := th w; disk := f; clock := clock w;
     draws := draws w; posts := posts w; writes := S (writes w);
     naps := naps w |}.

(** ** Pieces of the worker's body *)

Definition Qlt_bool (a b : Q) : bool := negb (Qle_bool b a).

(** [d.get(key)] on the dict of a JSON object; JSON null is [None] too. *)
Fixpoint dict_get (key : string) (fields : list (string * option string))
    : option string :=
  match fields with
  | [] => None
  | (k, v) :: rest => if String.eqb k key then v else dict_get key rest
  end.

(** How an f-string shows a value that may be [None]. *)
Definition fmt (v : option string) : string :=
  match v with Some s => s | None => "None" end.

Definition is_finished (r : LogRow) : bool :=
  match log_status r, elapsed_sec r with
  | SUCCESS, Some _ => true
  | ERROR, Some _ => true
  | _, _ => false
  end.

Definition elapsed_or_zero (r : LogRow) : Q :=
  match elapsed_sec r with Some e => e | None => 0%Q end.

(** [sum(...) / len(finished)] when [finished] is not empty. *)
Definition rolling_average (l : list LogRow) : option Q :=
  let finished := List.filter is_finished l in
  match finished with
  | [] => None
  | _ =>
      Some (fold_left Qplus (map elapsed_or_zero finished) 0%Q
            / inject_Z (Z.of_nat (length finished)))%Q
  end.

(** The locked block "Update counters and avg". *)
Definition count_done (s : SessionState) : SessionState :=
  {| df := df s; processed_profiles := processed_profiles s;
     logs := logs s;
     is_running := is_running s; is_paused := is_paused s;
     is_stopped := is_stopped s; start_time := start_time s;
     completed := completed s + 1; total := total s;
     avg_secs := match rolling_average (logs s) with
                 | Some a => Some a
                 | None => avg_secs s
                 end;
     pause_event := pause_event s; stop_event := stop_event s |}.

Definition add_processed (url : string) (s : SessionState) : SessionState :=
  {| df := df s; processed_profiles := {[ url ]} ∪ processed_profiles s;
     logs := logs s;
     is_running := is_running s; is_paused := is_paused s;
     is_stopped := is_stopped s; start_time := start_time s;
     completed := completed s; total := total s; avg_secs := avg_secs s;
     pause_event := pause_event s; stop_event := stop_event s |}.

Definition mark_finished (s : SessionState) : SessionState :=
  {| df := df s; processed_profiles := processed_profiles s;
     logs := logs s;
     is_running := false; is_paused := is_paused s;
     is_stopped := is_stopped s; start_time := start_time s;
     completed := completed s; total := total s; avg_secs := avg_secs s;
     pause_event := pause_event s; stop_event := stop_event s |}.

(** "Delay simulation w/ occasional extended break": the delay and whether
    the extended break was added, from three draws of the generator (the
    third is taken only for an extended break). *)
Definition next_delay (cfg : Config) (k1 k2 k3 : N) : Q * bool :=
  let base := random_uniform (min_delay cfg) (max_delay cfg) k1 in
  if Qlt_bool (random_random k2)
              (inject_Z (extended_break_chance cfg) / 100)%Q
  then ((base + random_uniform (extended_break_min cfg)
                               (extended_break_max cfg) k3)%Q, true)
  else (base, false).

(** [round(x, 1)] in tenths, ties to even. *)
Definition round_tenths (x : Q) : Z :=
  let y := (x * 10)%Q in
  let f := Qfloor y in
  let r := (y - inject_Z f)%Q in
  if Qlt_bool r (1 # 2) then f
  else if Qlt_bool (1 # 2) r then f + 1
  else if Z.even f then f else f + 1.

Definition show_tenths (t : Z) : string :=
  pretty (t / 10) +:+ "." +:+ pretty (t mod 10).

Definition wait_row (c : Z) : LogRow :=
  {| log_time := c; log_profileUrl := None; log_status := WAIT;
     log_details := "Outside working hours. Sleeping 1 hour.";
     elapsed_sec := None |}.

Definition start_row (c : Z) (url : string) : LogRow :=
  {| log_time := c; log_profileUrl := Some url; log_status := START;
     log_details := "Launching phantom…";
     elapsed_sec := None |}.

Definition success_row (c : Z) (url : string) (container_id : option string)
    (e : Z) : LogRow :=
  {| log_time := c; log_profileUrl := Some url; log_status := SUCCESS;
     log_details := "Container ID: " +:+ fmt container_id;
     elapsed_sec := Some (e # 100) |}.

Definition error_row (c : Z) (url : string) (err : string) (e : Z)
    : LogRow :=
  {| log_time := c; log_profileUrl := Some url; log_status := ERROR;
     log_details := err;
     elapsed_sec := Some (e # 100) |}.

Definition info_row (c : Z) (d : Q) : LogRow :=
  {| log_time := c; log_profileUrl := None; log_status := INFO;
     log_details :=
       "Extended break: ~" +:+ show_tenths (round_tenths (d / 60)) +:+ " min";
     elapsed_sec := None |}.

(** [range(60 * 60 // 2)] *)
Definition wait_rounds : nat := Z.to_nat (60 * 60 / 2).

(** ** One step of the worker *)

Definition step (cfg : Config) (env : Env) (w : World) (t : Thread) : World :=
  let s := ss w in
  match pc t with
  | L208 =>
      match rows t !! pos t with
      | None => with_th (goto L314 t) w
      | Some r =>
          if stop_event s then with_th (goto L314 (fetch r t)) w
          else with_th (goto L212 (fetch r t)) w
      end
  | L212 =>
      if pause_event s then with_th (goto L216 t) w
      else with_th (goto L213 t) w
  | L213 =>
      if stop_event s then with_th (goto L216 t) (nap 20 w)
      else with_th (goto L212 t) (nap 20 w)
  | L216 =>
      if stop_event s then with_th (goto L314 t) w
      else with_th (goto L220 t) w
  | L220 =>
      if is_within_working_hours cfg (datetime_now (clock w))
      then with_th (goto L241 t) w
      else with_th (goto (L230 0) t) (with_ss (add_log (wait_row (clock w)) s) w)
  | L230 k =>
      if (k <? wait_rounds)%nat then
        if stop_event s then with_th (goto L238 t) w
        else with_th (goto (L233 k) t) w
      else with_th (goto L238 t) w
  | L233 k =>
      if pause_event s then with_th (goto (L237 k) t) w
      else with_th (goto (L234 k) t) w
  | L234 k =>
      if stop_event s then with_th (goto (L237 k) t) (nap 20 w)
      else with_th (goto (L233 k) t) (nap 20 w)
  | L237 k => with_th (goto (L230 (S k)) t) (nap 50 w)
  | L238 =>
      if stop_event s then with_th (goto L314 t) w
      else with_th (goto L241 t) w
  | L241 =>
      with_th (goto L252 (set_started (clock w) t))
              (with_ss (add_log (start_row (clock w) (profileUrl (row t))) s) w)
  | L252 =>
      let '(q, d, out) :=
        launch_phantom (api_key cfg) (agent_id cfg)
                       (profileUrl (row t)) (message (row t))
                       (entropy env (draws w)) (http_post env (posts w)) in
      let e := clock w + Z.of_N d - started t in   (* time.time() - started *)
      match out with
      | inl r => with_th (goto L255 (set_res r (sent q e t))) (called d w)
      | inr _ => with_th (goto Crashed (sent q e t)) (called d w)
      end
  | L255 =>
      match res t with
      | Ok (JDict fields) =>
          with_th (goto L264 t)
            (with_ss (add_log (success_row (clock w) (profileUrl (row t))
                                 (dict_get "containerId" fields) (elapsed t)) s)
                     w)
      | Ok JNotDict => with_th (goto Crashed t) w   (* no attribute 'get' *)
      | Err e =>
          with_th (goto L277 t)
            (with_ss (add_log (error_row (clock w) (profileUrl (row t)) e
                                 (elapsed t)) s) w)
      end
  | L264 =>
      let s' := add_processed (profileUrl (row t)) s in
      with_th (goto L277 t)
        (wrote (save_processed_profiles_to_disk (processed_profiles s')
                  (file_write env (writes w)) (disk w))
               (with_ss s' w))
  | L277 => with_th (goto L285 t) (with_ss (count_done s) w)
  | L285 =>
      let '(d, extended) :=
        next_delay cfg (entropy env (draws w)) (entropy env (S (draws w)))
                   (entropy env (S (S (draws w)))) in
      if extended
      then with_th (goto L299 (set_delay d t))
             (drew 3 (with_ss (add_log (info_row (clock w) d) s) w))
      else with_th (goto L299 (set_delay d t)) (drew 2 w)
  | L299 =>
      if Qlt_bool (slept t) (delay t) then
        if stop_event s then with_th (goto L310 t) w
        else with_th (goto L302 t) w
      else with_th (goto L310 t) w
  | L302 =>
      if pause_event s then with_th (goto L306 t) w
      else with_th (goto L303 t) w
  | L303 =>
      if stop_event s then with_th (goto L306 t) (nap 20 w)
      else with_th (goto L302 t) (nap 20 w)
  | L306 =>
      if stop_event s then with_th (goto L310 t) w
      else with_th (goto L299 (set_slept (slept t + (1 # 4))%Q t)) (nap 25 w)
  | L310 =>
      if stop_event s then with_th (goto L314 t) w
      else with_th (goto L208 t) w
  | L314 => with_th (goto Finished t) (with_ss (mark_finished s) w)
  | Finished => w
  | Crashed => w
  end.

(** ** The buttons *)

Inductive Notice :=
| warning (msg : string)
| info (msg : string).

Definition new_thread (unprocessed_df : list Row) : Thread :=
  {| pc := L208; rows := unprocessed_df; pos := 0;
     row := mkRow "" ""; started := 0; res := Err ""; elapsed := 0;
     delay := 0%Q; slept := 0%Q; calls := [] |}.

(** [df[~df["profileUrl"].isin(ss.processed_profiles)]] *)
Definition unprocessed (d : list Row) (p : gset string) : list Row :=
  filter (fun r => profileUrl r ∉ p) d.

Definition start (cfg : Config) (w : World) : World * option Notice :=
  let s := ss w in
  match df s with
  | None => (w, Some (warning "Please upload a CSV first."))
  | Some d =>
      if String.eqb (api_key cfg) "" || String.eqb (agent_id cfg) "" then
        (w, Some (warning "Please provide API Key & Agent ID in the sidebar."))
      else if is_running s then (w, Some (info "Already running."))
      else
        let unprocessed_df := unprocessed d (processed_profiles s) in
        ({| ss := {| df := df s;
                     processed_profiles := processed_profiles s;
                     logs := [];
                     is_running := true; is_paused := false;
                     is_stopped := false;
                     start_time := Some (clock w);
                     completed := 0;
                     total := Z.of_nat (length unprocessed_df);
                     avg_secs := None;
                     pause_event := true; stop_event := false |};
            th := Some (new_thread unprocessed_df);
            disk := disk w; clock := clock w; draws := draws w;
            posts := posts w; writes := writes w; naps := naps w |},
         None)
  end.

Definition pause (s : SessionState) : SessionState :=
  if is_running s && negb (is_paused s) then
    {| df := df s; processed_profiles := processed_profiles s;
       logs := logs s;
       is_running := is_running s; is_paused := true;
       is_stopped := is_stopped s; start_time := start_time s;
       completed := completed s; total := total s; avg_secs := avg_secs s;
       pause_event := false; stop_event := stop_event s |}
  else s.

Definition resume (s : SessionState) : SessionState :=
  if is_running s && is_paused s then
    {| df := df s; processed_profiles := processed_profiles s;
       logs := logs s;
       is_running := is_running s; is_paused := false;
       is_stopped := is_stopped s; start_time := start_time s;
       completed := completed s; total := total s; avg_secs := avg_secs s;
       pause_event := true; stop_event := stop_event s |}
  else s.

Definition stop (s : SessionState) : SessionState :=
  if is_running s then
    {| df := df s; processed_profiles := processed_profiles s;
       logs := logs s;
       is_running := false; is_paused := false;
       is_stopped := true; start_time := start_time s;
       completed := completed s; total := total s; avg_secs := avg_secs s;
       pause_event := true; stop_event := true |}
  else s.

(** ** Runs: the worker's steps interleaved with the buttons

    An event is one step of the worker or one click handled by the interface
    thread while the run is on.  A flag read of the worker sees every click
    that comes before its step in the list. *)
Inductive Cmd := Pause | Resume | Stop.

Inductive Event :=
| Ui (c : Cmd)
| Tick.

Definition ui (c : Cmd) (w : World) : World :=
  match c with
  | Pause => with_ss (pause (ss w)) w
  | Resume => with_ss (resume (ss w)) w
  | Stop => with_ss (stop (ss w)) w
  end.

Definition tick (cfg : Config) (env : Env) (w : World) : World :=
  match th w with
  | Some t => step cfg env w t
  | None => w
  end.

Definition fire (cfg : Config) (env : Env) (w : World) (e : Event) : World :=
  match e with
  | Ui c => ui c w
  | Tick => tick cfg env w
  end.

Definition exec (cfg : Config) (env : Env) (evs : list Event) (w : World)
    : World :=
  fold_left (fire cfg env) evs w.

Definition ticks (cfg : Config) (env : Env) (n : nat) (w : World) : World :=
  exec cfg env (repeat Tick n) w.

(** ** Notions used in the statements *)

Definition sent_url (q : Request) : string :=
  specificProfileUrl (req_arguments q).

(** The profile URLs this run has sent to the Action API, in order. *)
Definition dispatched (w : World) : list string :=
  match th w with
  | Some t => map sent_url (calls t)
  | None => []
  end.

Definition halted (w : World) : bool :=
  match th w with
  | Some t => match pc t with Finished | Crashed => true | _ => false end
  | None => true
  end.


(** SUCCESS and ERROR rows are the terminal outcomes of an item. *)
Definition is_terminal (r : LogRow) : bool :=
  match log_status r with
  | SUCCESS | ERROR => true
  | _ => false
  end.

Definition terminal_rows (l : list LogRow) : nat :=
  length (List.filter is_terminal l).


(** The exception raised inside the [try] of [launch_phantom], if any: by
    [requests.post], or by [resp.json()] on a 200 response. *)
Definition raised_in_try (o : PostOutcome) : option Exn :=
  match o with
  | PostRaised e => Some e
  | Responded resp =>
      if status_code resp =? 200 then
        match resp_json resp with inr e => Some e | inl _ => None end
      else None
  end.




(** The RunQueue in the words of the specification: the loaded items minus
    ProcessedSet, in source order. *)
Fixpoint spec_run_queue (items : list Row) (p : gset string) : list Row :=
  match items with
  | [] => []
  | r :: rest =>
      if bool_decide (profileUrl r ∈ p) then spec_run_queue rest p
      else r :: spec_run_queue rest p
  end.

(** ** Example inputs *)

Definition demo_cfg : Config :=
  {| api_key := "key"; agent_id := "2222814165510688";
     start_hour := 9; end_hour := 17;
     min_delay := 1; max_delay := 2;
     extended_break_chance := 0;
     extended_break_min := 300; extended_break_max := 600 |}.

Definition launched (container : list (string * option string)) : Response :=
  {| status_code := 200; text := "{}"; resp_json := inl (JDict container) |}.

(** Every call answers 200 after 1.3 s with the given JSON object; the
    generator always draws 0; every ledger write goes as [o]. *)
Definition demo_env (container : list (string * option string))
    (o : WriteOutcome) : Env :=
  {| http_post := fun _ _ => (Responded (launched container), 130%N);
     entropy := fun _ => 0%N;
     file_write := fun _ => o |}.

Definition idle_session (d : option (list Row)) (p : gset string)
    : SessionState :=
  {| df := d; processed_profiles := p; logs := [];
     is_running := false; is_paused := false; is_stopped := false;
     start_time := None; completed := 0; total := 0; avg_secs := None;
     pause_event := true; stop_event := false |}.

Definition idle_world (d : option (list Row)) (p : gset string) (c : Z)
    : World :=
  {| ss := idle_session d p; th := None; disk := NoFile; clock := c;
     draws := 0; posts := 0; writes := 0; naps := 0 |}.

(** Monday 10:00 and Saturday 10:00 on the clock. *)
Definition monday_10 : Z := 10 * 360000.
Definition saturday_10 : Z := (5 * 24 + 10) * 360000.

(** ** The invariant of a run *)

(** How the iterator, the requests sent, the log and the counter stand at
    each label, for a run over the queue [q]. *)
Definition run_inv (q : list Row) (s : SessionState) (t : Thread) : Prop :=
  let n := length (calls t) in
  let T := terminal_rows (logs s) in
  rows t = q
  /\ total s = Z.of_nat (length q)
  /\ (n <= length q)%nat
  /\ map sent_url (calls t) = map profileUrl (take n q)
  /\ match pc t with
     | L208 | L285 | L299 | L302 | L303 | L306 | L310 =>
         pos t = n /\ T = n /\ completed s = Z.of_nat n
     | L212 | L213 | L216 | L220 | L230 _ | L233 _ | L234 _ | L237 _
     | L238 | L241 | L252 =>
         pos t = S n /\ q !! n = Some (row t) /\ T = n
         /\ completed s = Z.of_nat n
     | L255 | Crashed =>
         pos t = n /\ S T = n /\ completed s = Z.of_nat T
     | L264 | L277 =>
         pos t = n /\ T = n /\ 0 <= completed s
         /\ completed s + 1 = Z.of_nat n
     | L314 | Finished =>
         T = n /\ completed s = Z.of_nat n
         /\ (stop_event s = true \/ n = length q)
     end.

Definition run_inv_world (q : list Row) (w : World) : Prop :=
  exists t, th w = Some t /\ run_inv q (ss w) t.



(** ** Uninterrupted runs *)

(** No click is pending: the stop flag is down and the pause gate is open. *)
Definition quiet (w : World) : Prop :=
  stop_event (ss w) = false /\ pause_event (ss w) = true.

(** The worker is at label [p] of a run over [q], [i] rows handed out. *)
Definition stands (w : World) (p : Pc) (q : list Row) (i : nat) : Prop :=
  quiet w
  /\ exists t, th w = Some t /\ pc t = p /\ rows t = q /\ pos t = i.

(** Some number of worker steps leads from [w] to a world with [P]. *)
Definition reaches (cfg : Config) (env : Env) (w : World)
    (P : World -> Prop) : Prop :=
  exists n, P (ticks cfg env n w).

(** The Action API never makes the worker raise: no exception outside the
    [RequestException] family, and every 200 body is a JSON object. *)
Definition never_raises (env : Env) : Prop :=
  forall n q,
    match classify (fst (http_post env n q)) with
    | inl (Ok (JDict _)) => True
    | inl (Err _) => True
    | inl (Ok JNotDict) => False
    | inr _ => False
    end.

(** ** The rest of the script *)

(** What [setdefault] stores in a session that holds nothing yet (a new
    [threading.Event] is clear). *)
Definition session_defaults : SessionState :=
  {| df := None; processed_profiles := ∅; logs := [];
     is_running := false; is_paused := false; is_stopped := false;
     start_time := None; completed := 0; total := 0; avg_secs := None;
     pause_event := false; stop_event := false |}.

(** [_init_state] runs at every run of the script: [setdefault] leaves the
    keys of an existing session alone, and line 70 sets [pause_event]. *)
Definition _init_state (s : option SessionState) : SessionState :=
  let s0 := match s with Some s0 => s0 | None => session_defaults end in
  {| df := df s0; processed_profiles := processed_profiles s0;
     logs := logs s0;
     is_running := is_running s0; is_paused := is_paused s0;
     is_stopped := is_stopped s0; start_time := start_time s0;
     completed := completed s0; total := total s0; avg_secs := avg_secs s0;
     pause_event := true; stop_event := stop_event s0 |}.

(** Lines 169-170: an empty in-memory set is replaced by the ledger on
    disk. *)
Definition load_once (f : FileState) (s : SessionState) : SessionState :=
  if decide (processed_profiles s = ∅) then
    {| df := df s;
       processed_profiles := load_processed_profiles_from_disk f;
       logs := logs s;
       is_running := is_running s; is_paused := is_paused s;
       is_stopped := is_stopped s; start_time := start_time s;
       completed := completed s; total := total s; avg_secs := avg_secs s;
       pause_event := pause_event s; stop_event := stop_event s |}
  else s.

(** What one more run of the script (after a click, or the auto-refresh)
    does to the session, the uploader holding what it held. *)
Definition rerun (w : World) : World :=
  with_ss (load_once (disk w) (_init_state (Some (ss w)))) w.

Definition secs_to_hms (sec : Z) : string :=
  let h := sec / 3600 in
  let m := (sec mod 3600) / 60 in
  let s := sec mod 60 in
  if 0 <? h then
    pretty h +:+ "h " +:+ pretty m +:+ "m " +:+ pretty s +:+ "s"
  else if 0 <? m then pretty m +:+ "m " +:+ pretty s +:+ "s"
  else pretty s +:+ "s".


(** The [disabled=] arguments of the buttons. *)
Definition pause_disabled (s : SessionState) : bool :=
  negb (is_running s) || is_paused s.

Definition resume_disabled (s : SessionState) : bool :=
  negb (is_running s) || negb (is_paused s).

Definition stop_disabled (s : SessionState) : bool :=
  negb (is_running s).

(** ** More notions for statements about runs *)



(** The labels from which the worker can still send a request although the
    pause gate is shut: those between a pause gate and the call. *)
Definition past_pause_gate (p : Pc) : nat :=
  match p with
  | L216 | L220 | L230 _ | L237 _ | L238 | L241 | L252 => 1
  | _ => 0
  end.

(** The URLs of the rows of one status, in log order. *)
Definition urls_of (st : Status) (l : list LogRow) : list string :=
  omap (fun r =>
          match st, log_status r with
          | START, START | SUCCESS, SUCCESS | ERROR, ERROR => log_profileUrl r
          | _, _ => None
          end) l.

(** A START row is written at line 244 and its request leaves at line 252. *)
Definition announced (t : Thread) : list string :=
  match pc t with
  | L252 => [profileUrl (row t)]
  | _ => []
  end.

(** A SUCCESS row is written at line 257 and its key stored at line 265. *)
Definition unsaved (t : Thread) : list string :=
  match pc t with
  | L264 => [profileUrl (row t)]
  | _ => []
  end.


(** Where the worker stands some steps after the pause gate was shut on the
    world [w0] with the locals [t0], nobody clicking since: it has sent
    nothing, or the one request of the row it had taken past the gate. *)
Definition pause_rel (w0 : World) (t0 : Thread) (w : World) : Prop :=
  pause_event (ss w) = false /\ stop_event (ss w) = false
  /\ exists t,
       th w = Some t
       /\ ((calls t = calls t0
            /\ (past_pause_gate (pc t) = 1%nat ->
                past_pause_gate (pc t0) = 1%nat /\ row t = row t0))
           \/ (past_pause_gate (pc t0) = 1%nat
               /\ past_pause_gate (pc t) = 0%nat
               /\ exists c, calls t = calls t0 ++ [c]
                            /\ sent_url c = profileUrl (row t0))).

(** The log, the requests and the processed set of a run that started from
    the processed set [p0] tell the same story. *)
Definition ledger_inv (p0 : gset string) (w : World) : Prop :=
  exists t,
    th w = Some t
    /\ urls_of START (logs (ss w)) = map sent_url (calls t) ++ announced t
    /\ processed_profiles (ss w) ∪ list_to_set (unsaved t)
       = p0 ∪ list_to_set (urls_of SUCCESS (logs (ss w)))
    /\ (forall u, u ∈ urls_of SUCCESS (logs (ss w)) ->
                  u ∈ map sent_url (calls t))
    /\ (pc t = L255 -> profileUrl (row t) ∈ map sent_url (calls t)).


(** Every call is refused: the Action API answers with another status than
    200, or the request fails with a [RequestException]. *)
Definition all_fail (env : Env) : Prop :=
  forall n q, exists e, classify (fst (http_post env n q)) = inl (Err e).


(** The run has logged no success so far, and is not about to. *)
Definition fail_inv (w : World) : Prop :=
  exists t,
    th w = Some t
    /\ urls_of SUCCESS (logs (ss w)) = []
    /\ pc t <> L264
    /\ (pc t = L255 -> exists e, res t = Err e).


(** * Properties *)

(** ** Basic facts *)

Ltac sort_out :=
  repeat split; intros;
  repeat match goal with
    | H : _ /\ _ |- _ => destruct H
    | H : exists _, _ |- _ => destruct H
    end;
  simplify_eq; eauto; try congruence; try contradiction.

Lemma Qlt_bool_iff (a b : Q) : Qlt_bool a b = true <-> (a < b)%Q.
Proof.
  unfold Qlt_bool. rewrite negb_true_iff. split.
  - intros H. apply Qnot_le_lt. intros Hle.
    apply Qle_bool_iff in Hle. congruence.
  - intros H. destruct (Qle_bool b a) eqn:E; [|reflexivity].
    apply Qle_bool_iff in E. exfalso. apply (Qlt_not_le _ _ H E).
Qed.

Lemma random_random_range (k : N) :
  (0 <= random_random k)%Q /\ (random_random k < 1)%Q.
Proof.
  unfold random_random, Qle, Qlt. simpl.
  assert (H : (k mod 9007199254740992 < 9007199254740992)%N)
    by (apply N.mod_lt; discriminate).
  revert H. generalize (k mod 9007199254740992)%N. intros n H. lia.
Qed.

Lemma random_uniform_range (a b : Z) (k : N) :
  a <= b ->
  (inject_Z a <= random_uniform a b k)%Q
  /\ (random_uniform a b k <= inject_Z b)%Q.
Proof.
  intros Hab. unfold random_uniform.
  destruct (random_random_range k) as [H0 H1].
  assert (Hq : (inject_Z a <= inject_Z b)%Q) by (rewrite <- Zle_Qle; exact Hab).
  set (u := random_random k) in *.
  set (x := inject_Z a) in *. set (y := inject_Z b) in *.
  split; nra.
Qed.


Lemma status_active (s : SessionState) :
  is_running s = true <-> status s = Running \/ status s = Paused.
Proof.
  unfold status.
  destruct (is_running s), (is_paused s), (is_stopped s); simpl;
    (split; [intros H; try discriminate; auto
            | intros [H|H]; try discriminate; auto]).
Qed.


Lemma exec_app cfg env (e1 e2 : list Event) (w : World) :
  exec cfg env (e1 ++ e2) w = exec cfg env e2 (exec cfg env e1 w).
Proof. unfold exec. apply fold_left_app. Qed.

Lemma ticks_S cfg env (n : nat) (w : World) :
  ticks cfg env (S n) w = ticks cfg env n (tick cfg env w).
Proof. reflexivity. Qed.

Lemma ticks_add cfg env (n m : nat) (w : World) :
  ticks cfg env (n + m) w = ticks cfg env m (ticks cfg env n w).
Proof. unfold ticks. rewrite repeat_app. apply exec_app. Qed.

(** A property kept by every click and every worker step holds along every
    run. *)
Lemma exec_preserves cfg env (P : World -> Prop) :
  (forall w c, P w -> P (ui c w)) ->
  (forall w, P w -> P (tick cfg env w)) ->
  forall evs w, P w -> P (exec cfg env evs w).
Proof.
  intros Hui Htick evs. induction evs as [|e evs IH]; intros w Hw.
  - exact Hw.
  - simpl. apply IH. destruct e as [c|]; simpl; auto.
Qed.

(** ** Pacing model *)



(** The worker logs the INFO row exactly when [next_delay] reports an
    extended break. *)
Lemma step_L285_logs cfg env (w : World) (t : Thread) :
  pc t = L285 ->
  let '(d, extended) :=
    next_delay cfg (entropy env (draws w)) (entropy env (S (draws w)))
               (entropy env (S (S (draws w)))) in
  logs (ss (step cfg env w t)) =
    if extended then logs (ss w) ++ [info_row (clock w) d] else logs (ss w).
Proof.
  intros Hpc. unfold step. rewrite Hpc.
  destruct (next_delay _ _ _ _) as [d [|]]; reflexivity.
Qed.

(** ** ETA estimator *)




(** ** Action Client *)

(** C5, as the claim has it, fails: a 200 response whose JSON object has no
    [containerId] is classified as a success, and the worker logs SUCCESS
    and records the profile as processed. *)
Lemma success_without_container_id :
  classify (Responded (launched [])) = inl (Ok (JDict []))
  /\ dict_get "containerId" [] = None
  /\ let w := ticks demo_cfg (demo_env [] Written) 8
                (fst (start demo_cfg
                        (idle_world (Some [mkRow "u1" "hello"]) ∅ monday_10)))
     in map log_status (logs (ss w)) = [START; SUCCESS]
        /\ map log_details (logs (ss w))
             = ["Launching phantom…"; "Container ID: None"]%string
        /\ elements (processed_profiles (ss w)) = ["u1"%string].
Proof. vm_compute. repeat split; reflexivity. Qed.

(** C5 (amended): the request carries [timeout=30]; the outcome is a success
    exactly when the response has status 200 and [resp.json()] returns a
    body, whatever the body holds; any other status is a failure with the
    reason "API Error: <status> - <text>"; an exception of the
    [RequestException] family is a failure with the reason
    "Network error: <e>"; an exception leaves [launch_phantom] exactly when
    it is raised in the [try] block and is not a [RequestException]. *)
Theorem launch_phantom_outcomes
    (key agent url msg : string) (k : N) (post : Request -> PostOutcome * N) :
  let req := launch_request key agent url msg k in
  let o := fst (post req) in
  let out := snd (launch_phantom key agent url msg k post) in
  fst (launch_phantom key agent url msg k post) = (req, snd (post req))
  /\ req_timeout req = 30
  /\ (forall data,
        out = inl (Ok data) <->
        exists resp, o = Responded resp /\ status_code resp = 200
                     /\ resp_json resp = inl data)
  /\ (forall resp,
        o = Responded resp -> status_code resp <> 200 ->
        out = inl (Err ("API Error: " +:+ pretty (status_code resp)
                          +:+ " - " +:+ text resp)))
  /\ (forall e,
        raised_in_try o = Some e -> is_request_exception e = true ->
        out = inl (Err ("Network error: " +:+ exn_str e)))
  /\ (forall e,
        out = inr e <->
        raised_in_try o = Some e /\ is_request_exception e = false).
Proof.
  intros req o out. subst out o. unfold launch_phantom. fold req.
  destruct (post req) as [o d]. simpl.
  split; [reflexivity|]. split; [reflexivity|].
  unfold classify, raised_in_try.
  destruct o as [resp|e0].
  - destruct (status_code resp =? 200) eqn:Hs.
    + apply Z.eqb_eq in Hs.
      destruct (resp_json resp) as [d0|e0] eqn:Hj;
        [|destruct (is_request_exception e0) eqn:He]; sort_out.
    + apply Z.eqb_neq in Hs. sort_out.
  - destruct (is_request_exception e0) eqn:He; sort_out.
Qed.

Lemma launch_phantom_outcomes_witness :
  snd (launch_phantom "key" "agent" "u1" "hello" 4
         (fun _ => (Responded {| status_code := 503; text := "busy";
                                 resp_json := inl JNotDict |}, 20%N)))
  = inl (Err "API Error: 503 - busy").
Proof.
  destruct (launch_phantom_outcomes "key" "agent" "u1" "hello" 4
              (fun _ => (Responded {| status_code := 503; text := "busy";
                                      resp_json := inl JNotDict |}, 20%N)))
    as (_ & _ & _ & H & _).
  apply (H {| status_code := 503; text := "busy";
              resp_json := inl JNotDict |}); [reflexivity | discriminate].
Defined.

(** ** Start *)

(** C3, as the claim has it, fails: with a CSV loaded whose only profile is
    already processed the queue is empty, and [start] is not rejected: it
    resets the run state, reports Running and creates the worker. *)
Lemma start_accepts_empty_queue :
  let w := idle_world (Some [mkRow "u1" "hello"]) {[ "u1"%string ]} monday_10 in
  unprocessed [mkRow "u1" "hello"] (processed_profiles (ss w)) = []
  /\ snd (start demo_cfg w) = None
  /\ status (ss (fst (start demo_cfg w))) = Running
  /\ start_time (ss (fst (start demo_cfg w))) = Some monday_10
  /\ th (fst (start demo_cfg w)) = Some (new_thread [])
  /\ fst (start demo_cfg w) <> w.
Proof.
  vm_compute. repeat split; try reflexivity. discriminate.
Qed.

(** C3 (amended): [start] is a no-op with a notice when no CSV is loaded,
    when the API key or the agent id is empty, or when the engine is Running
    or Paused; in every other case, an empty queue included, it clears the
    log, zeroes the counter, sets the total to the queue length, forgets the
    average, clears the stop flag, reports Running and creates the worker on
    the unprocessed rows. *)
Theorem start_rejects_or_begins (cfg : Config) (w : World) :
  (df (ss w) = None \/ api_key cfg = ""%string \/ agent_id cfg = ""%string
   \/ status (ss w) = Running \/ status (ss w) = Paused ->
   exists n, start cfg w = (w, Some n))
  /\ (forall d,
        df (ss w) = Some d ->
        api_key cfg <> ""%string -> agent_id cfg <> ""%string ->
        status (ss w) <> Running -> status (ss w) <> Paused ->
        exists w',
          start cfg w = (w', None)
          /\ let q := unprocessed d (processed_profiles (ss w)) in
             status (ss w') = Running
             /\ logs (ss w') = []
             /\ completed (ss w') = 0
             /\ total (ss w') = Z.of_nat (length q)
             /\ avg_secs (ss w') = None
             /\ stop_event (ss w') = false
             /\ pause_event (ss w') = true
             /\ processed_profiles (ss w') = processed_profiles (ss w)
             /\ th w' = Some (new_thread q)).
Proof.
  split.
  - intros H. unfold start.
    destruct (df (ss w)) as [d|]; [|eauto].
    destruct (String.eqb (api_key cfg) "") eqn:Hk; [simpl; eauto|].
    destruct (String.eqb (agent_id cfg) "") eqn:Ha; [simpl; eauto|].
    simpl.
    destruct (is_running (ss w)) eqn:Hr; [eauto|].
    exfalso.
    apply String.eqb_neq in Hk. apply String.eqb_neq in Ha.
    destruct H as [H|[H|[H|H]]]; try congruence.
    apply status_active in H. congruence.
  - intros d Hd Hk Ha Hnr Hnp. unfold start. rewrite Hd.
    apply String.eqb_neq in Hk. apply String.eqb_neq in Ha.
    rewrite Hk, Ha. simpl.
    destruct (is_running (ss w)) eqn:Hr.
    { apply status_active in Hr. destruct Hr; contradiction. }
    eexists. split; [reflexivity|]. simpl. repeat split; reflexivity.
Qed.

Lemma start_rejects_or_begins_witness :
  (exists n, start demo_cfg (idle_world None ∅ monday_10)
             = (idle_world None ∅ monday_10, Some n))
  /\ exists w',
       start demo_cfg (idle_world (Some []) ∅ monday_10) = (w', None)
       /\ status (ss w') = Running.
Proof.
  split.
  - apply (start_rejects_or_begins demo_cfg (idle_world None ∅ monday_10)).
    left. reflexivity.
  - destruct (start_rejects_or_begins demo_cfg
                (idle_world (Some []) ∅ monday_10)) as [_ H].
    destruct (H []) as (w' & Hs & Hst & _);
      [reflexivity | discriminate | discriminate | discriminate
      | discriminate |].
    exists w'. split; assumption.
Defined.

(** ** Working-hours gate *)

(** C1 at the failing input: working hours 9-17, one unprocessed profile,
    run started on a Saturday at 10:00, no click.  The worker logs WAIT,
    sleeps 1800 times 0.5 s (15 minutes), does not look at the gate again and
    sends the request on Saturday at 10:15, with the gate still closed. *)
Theorem closed_gate_dispatches_after_wait :
  let w0 := fst (start demo_cfg
                   (idle_world (Some [mkRow "u1" "hello"]) ∅ saturday_10)) in
  let w := ticks demo_cfg (demo_env [] Written) (8 + 3 * 1800) w0 in
  is_within_working_hours demo_cfg (datetime_now (clock w0)) = false
  /\ map log_status (logs (ss w)) = [WAIT; START]
  /\ dispatched w = ["u1"%string]
  /\ naps w = 1800%nat
  /\ clock w = saturday_10 + 15 * 60 * 100 + 130
  /\ datetime_now (clock w) = {| weekday := 5; hour := 10 |}
  /\ is_within_working_hours demo_cfg (datetime_now (clock w)) = false.
Proof.
  vm_compute. repeat split; reflexivity.
Qed.

(** ** The invariant holds along every run *)

Lemma terminal_rows_snoc (l : list LogRow) (r : LogRow) :
  terminal_rows (l ++ [r])
  = (terminal_rows l + (if is_terminal r then 1 else 0))%nat.
Proof.
  unfold terminal_rows. rewrite List.filter_app, length_app. simpl.
  destruct (is_terminal r); reflexivity.
Qed.

Lemma sent_url_launch key agent url msg k post :
  sent_url (fst (fst (launch_phantom key agent url msg k post))) = url.
Proof.
  unfold launch_phantom. destruct (post _) as [o d]. reflexivity.
Qed.

Lemma dispatch_snoc (q : list Row) (cs : list Request) (r : Row) (c : Request) :
  q !! length cs = Some r ->
  sent_url c = profileUrl r ->
  map sent_url cs = map profileUrl (take (length cs) q) ->
  (length (cs ++ [c]) <= length q)%nat
  /\ map sent_url (cs ++ [c]) = map profileUrl (take (length (cs ++ [c])) q).
Proof.
  intros Hl Hc Hm. rewrite length_app. simpl.
  apply lookup_lt_Some in Hl as Hlt. split; [lia|].
  replace (length cs + 1)%nat with (S (length cs)) by lia.
  rewrite (take_S_r _ _ _ Hl), !map_app, Hm. simpl. rewrite Hc. reflexivity.
Qed.

Lemma ui_run_inv (q : list Row) (w : World) (c : Cmd) :
  run_inv_world q w -> run_inv_world q (ui c w).
Proof.
  intros (t & Hth & Hinv). exists t. split.
  - destruct c; exact Hth.
  - unfold run_inv in *.
    destruct c; simpl; unfold pause, resume, stop;
      repeat case_match; simpl; try exact Hinv;
      destruct Hinv as (? & ? & ? & ? & Hpc);
      (repeat split; try assumption);
      destruct (pc t); sort_out.
Qed.

Lemma tick_run_inv cfg env (q : list Row) (w : World) :
  run_inv_world q w -> run_inv_world q (tick cfg env w).
Proof.
  intros (t & Hth & Hrows & Htot & Hn & Hcalls & Hpc).
  unfold tick. rewrite Hth. unfold step.
  destruct (pc t) eqn:E.
  12: {
    destruct Hpc as (Hpos & Hrow & HT & Hc).
    pose proof (sent_url_launch (api_key cfg) (agent_id cfg)
                  (profileUrl (row t)) (message (row t))
                  (entropy env (draws w)) (http_post env (posts w))) as Hu.
    destruct (launch_phantom _ _ _ _ _ _) as [[c d] out]. simpl in Hu.
    destruct (dispatch_snoc q (calls t) (row t) c Hrow Hu Hcalls) as [Hle Hm].
    destruct out as [r|e]; eexists; (split; [reflexivity|]);
      unfold run_inv; simpl; rewrite length_app in *; simpl in *;
      (repeat split; try assumption; try lia). }
  1: {
    destruct Hpc as (Hpos & HT & Hc). rewrite Hrows, Hpos.
    destruct (q !! length (calls t)) as [r|] eqn:Hl.
    - destruct (stop_event (ss w)) eqn:Hs; eexists; (split; [reflexivity|]);
        unfold run_inv; simpl; (repeat split; try assumption; try tauto; lia).
    - apply lookup_ge_None in Hl.
      eexists; (split; [reflexivity|]).
      unfold run_inv; simpl. repeat split; try assumption. right. lia. }
  all: try (repeat case_match; eexists; (split; [reflexivity|]);
       unfold run_inv; simpl; rewrite ?terminal_rows_snoc; simpl;
       (repeat split; try assumption; try tauto; try lia)).
  all: exists t; split; [exact Hth|]; unfold run_inv; rewrite E; tauto.
Qed.

Lemma start_accepted cfg (w0 w1 : World) (d : list Row) :
  df (ss w0) = Some d ->
  start cfg w0 = (w1, None) ->
  w1 = {| ss := {| df := df (ss w0);
                   processed_profiles := processed_profiles (ss w0);
                   logs := [];
                   is_running := true; is_paused := false;
                   is_stopped := false;
                   start_time := Some (clock w0);
                   completed := 0;
                   total := Z.of_nat
                     (length (unprocessed d (processed_profiles (ss w0))));
                   avg_secs := None;
                   pause_event := true; stop_event := false |};
          th := Some (new_thread (unprocessed d (processed_profiles (ss w0))));
          disk := disk w0; clock := clock w0; draws := draws w0;
          posts := posts w0; writes := writes w0; naps := naps w0 |}.
Proof.
  intros Hd. unfold start. rewrite Hd.
  repeat case_match; intros Heq; inversion Heq. reflexivity.
Qed.

Lemma start_run_inv cfg (w0 w1 : World) (d : list Row) :
  df (ss w0) = Some d ->
  start cfg w0 = (w1, None) ->
  run_inv_world (unprocessed d (processed_profiles (ss w0))) w1.
Proof.
  intros Hd Hs. rewrite (start_accepted cfg w0 w1 d Hd Hs).
  eexists. split; [reflexivity|].
  unfold run_inv; simpl. repeat split; lia.
Qed.

Lemma exec_run_inv cfg env (q : list Row) (evs : list Event) (w : World) :
  run_inv_world q w -> run_inv_world q (exec cfg env evs w).
Proof.
  apply (exec_preserves cfg env (run_inv_world q)).
  - intros w' c. apply ui_run_inv.
  - intros w'. apply tick_run_inv.
Qed.

Lemma unprocessed_spec (items : list Row) (p : gset string) :
  unprocessed items p = spec_run_queue items p.
Proof.
  unfold unprocessed. induction items as [|r rest IH]; [reflexivity|].
  simpl. rewrite filter_cons, IH.
  destruct (decide (profileUrl r ∉ p)) as [Hn|Hn].
  - rewrite bool_decide_eq_false_2; [reflexivity | exact Hn].
  - rewrite bool_decide_eq_true_2; [reflexivity|].
    destruct (decide (profileUrl r ∈ p)); [assumption | contradiction].
Qed.

(** ** Duplicate suppression at the start of a run *)



(** ** Progress counter *)




(** ** Stop *)










(** ** Persistence ledger *)

Lemma tick_processed_grows cfg env (w : World) :
  processed_profiles (ss w) ⊆ processed_profiles (ss (tick cfg env w)).
Proof.
  unfold tick. destruct (th w) as [t|]; [|reflexivity].
  unfold step. destruct (pc t); repeat case_match; simpl;
    try reflexivity. apply union_subseteq_r.
Qed.

Lemma ui_processed (w : World) (c : Cmd) :
  processed_profiles (ss (ui c w)) = processed_profiles (ss w).
Proof.
  destruct c; simpl; unfold pause, resume, stop; repeat case_match;
    reflexivity.
Qed.

Lemma exec_processed_grows cfg env (evs : list Event) (w : World) :
  processed_profiles (ss w) ⊆ processed_profiles (ss (exec cfg env evs w)).
Proof.
  revert w. induction evs as [|e evs IH]; intros w; [reflexivity|].
  simpl. etransitivity; [|apply IH].
  destruct e as [c|]; simpl.
  - rewrite ui_processed. reflexivity.
  - apply tick_processed_grows.
Qed.

(** C6, as the claim has it, fails: a run whose ledger write raises leaves
    the same log as the run whose write succeeds; no row mentions the
    failure. *)
Lemma ledger_write_failure_not_logged :
  let w0 := fst (start demo_cfg
                   (idle_world (Some [mkRow "u1" "hello"]) ∅ monday_10)) in
  let failing := ticks demo_cfg (demo_env [] OpenRaised) 40 w0 in
  let working := ticks demo_cfg (demo_env [] Written) 40 w0 in
  halted failing = true
  /\ disk failing = NoFile
  /\ disk working = JsonArray ["u1"%string]
  /\ logs (ss failing) = logs (ss working)
  /\ map log_status (logs (ss failing)) = [START; SUCCESS].
Proof. vm_compute. repeat split; reflexivity. Qed.

(** C6 (amended): the step that records a success and writes the ledger
    (lines 264-266) appends nothing to the log whatever the write does, and
    the worker goes on to the counter update; the key is in the in-memory
    set, which never loses a key along a run; a write that succeeds leaves on
    disk the whole in-memory set; a write that fails leaves the old file or a
    truncated one. *)
Theorem ledger_write_failure_is_silent
    cfg env (w0 : World) (evs : list Event) (t : Thread) :
  let w := exec cfg env evs w0 in
  th w = Some t ->
  pc t = L264 ->
  let w' := tick cfg env w in
  logs (ss w') = logs (ss w)
  /\ (exists t', th w' = Some t' /\ pc t' = L277)
  /\ processed_profiles (ss w')
     = {[ profileUrl (row t) ]} ∪ processed_profiles (ss w)
  /\ processed_profiles (ss w0) ⊆ processed_profiles (ss w')
  /\ (file_write env (writes w) = Written ->
      load_processed_profiles_from_disk (disk w') = processed_profiles (ss w'))
  /\ (file_write env (writes w) = OpenRaised -> disk w' = disk w)
  /\ (file_write env (writes w) = DumpRaised ->
      disk w' = Garbage
      /\ load_processed_profiles_from_disk (disk w') = ∅).
Proof.
  intros w Hth Hpc w'.
  assert (Hgrow : processed_profiles (ss w0) ⊆ processed_profiles (ss w')).
  { etransitivity; [apply (exec_processed_grows cfg env evs)|].
    apply tick_processed_grows. }
  revert Hgrow. subst w'. unfold tick. rewrite Hth. unfold step. rewrite Hpc.
  simpl. intros Hgrow.
  split; [reflexivity|].
  split; [eexists; split; reflexivity|].
  split; [reflexivity|].
  split; [exact Hgrow|].
  split; [|split].
  - intros ->. simpl. apply list_to_set_elements_L.
  - intros ->. reflexivity.
  - intros ->. split; reflexivity.
Qed.

Lemma ledger_write_failure_is_silent_witness :
  let w0 := fst (start demo_cfg
                   (idle_world (Some [mkRow "u1" "hello"]) ∅ monday_10)) in
  let w := exec demo_cfg (demo_env [] OpenRaised) (repeat Tick 7) w0 in
  let w' := tick demo_cfg (demo_env [] OpenRaised) w in
  logs (ss w') = logs (ss w) /\ disk w' = disk w.
Proof.
  intros w0 w w'.
  destruct (th w) as [t|] eqn:Hth; [|vm_compute in Hth; discriminate].
  assert (Hpc : pc t = L264).
  { vm_compute in Hth. injection Hth as <-. reflexivity. }
  destruct (ledger_write_failure_is_silent demo_cfg (demo_env [] OpenRaised)
              w0 (repeat Tick 7) t Hth Hpc) as (Hl & _ & _ & _ & _ & Hd & _).
  split; [exact Hl | apply Hd; reflexivity].
Defined.

(** ** Runs without clicks *)

Section Uninterrupted.
Variable cfg : Config.
Variable env : Env.
Hypothesis Hcalm : never_raises env.

Lemma reaches_here (w : World) (P : World -> Prop) :
  P w -> reaches cfg env w P.
Proof. intros H. exists 0%nat. exact H. Qed.

Lemma reaches_step (w : World) (P : World -> Prop) :
  reaches cfg env (tick cfg env w) P -> reaches cfg env w P.
Proof. intros [n H]. exists (S n). rewrite ticks_S. exact H. Qed.

Lemma reaches_trans (w : World) (P Q : World -> Prop) :
  reaches cfg env w Q ->
  (forall w', Q w' -> reaches cfg env w' P) ->
  reaches cfg env w P.
Proof.
  intros [n H] HQ. destruct (HQ _ H) as [m Hm].
  exists (n + m)%nat. rewrite ticks_add. exact Hm.
Qed.

Ltac open_stands H t :=
  let Hs := fresh "Hstop" in let Hp := fresh "Hpause" in
  let Hth := fresh "Hth" in let Hpc := fresh "Hpc" in
  let Hr := fresh "Hrows" in let Hi := fresh "Hpos" in
  destruct H as ((Hs & Hp) & t & Hth & Hpc & Hr & Hi);
  unfold tick; rewrite Hth; unfold step; rewrite Hpc, ?Hs, ?Hp.

Ltac close_stands :=
  unfold stands, quiet; simpl;
  (split; [split; assumption|]); eexists; (split; [reflexivity|]);
  simpl; repeat split; try assumption; try reflexivity.

Lemma step_L208_some w q i r :
  stands w L208 q i -> q !! i = Some r ->
  stands (tick cfg env w) L212 q (S i).
Proof.
  intros H Hl. open_stands H t. rewrite Hrows, Hpos, Hl. close_stands.
  rewrite Hpos; reflexivity.
Qed.

Lemma step_L208_none w q i :
  stands w L208 q i -> q !! i = None ->
  stands (tick cfg env w) L314 q i.
Proof.
  intros H Hl. open_stands H t. rewrite Hrows, Hpos, Hl. close_stands.
Qed.

Lemma step_L212 w q i :
  stands w L212 q i -> stands (tick cfg env w) L216 q i.
Proof. intros H. open_stands H t. close_stands. Qed.

Lemma step_L216 w q i :
  stands w L216 q i -> stands (tick cfg env w) L220 q i.
Proof. intros H. open_stands H t. close_stands. Qed.

Lemma step_L220 w q i :
  stands w L220 q i ->
  stands (tick cfg env w) L241 q i \/ stands (tick cfg env w) (L230 0) q i.
Proof.
  intros H. open_stands H t.
  destruct (is_within_working_hours _ _); [left|right]; close_stands.
Qed.

Lemma step_L230_in w q i k :
  (k < wait_rounds)%nat ->
  stands w (L230 k) q i -> stands (tick cfg env w) (L233 k) q i.
Proof.
  intros Hk H. open_stands H t.
  apply Nat.ltb_lt in Hk. rewrite Hk. close_stands.
Qed.

Lemma step_L230_out w q i k :
  (wait_rounds <= k)%nat ->
  stands w (L230 k) q i -> stands (tick cfg env w) L238 q i.
Proof.
  intros Hk H. open_stands H t.
  apply Nat.ltb_ge in Hk. rewrite Hk. close_stands.
Qed.

Lemma step_L233 w q i k :
  stands w (L233 k) q i -> stands (tick cfg env w) (L237 k) q i.
Proof. intros H. open_stands H t. close_stands. Qed.

Lemma step_L237 w q i k :
  stands w (L237 k) q i -> stands (tick cfg env w) (L230 (S k)) q i.
Proof. intros H. open_stands H t. close_stands. Qed.

Lemma step_L238 w q i :
  stands w L238 q i -> stands (tick cfg env w) L241 q i.
Proof. intros H. open_stands H t. close_stands. Qed.

Lemma step_L241 w q i :
  stands w L241 q i -> stands (tick cfg env w) L252 q i.
Proof. intros H. open_stands H t. close_stands. Qed.

Lemma step_L264 w q i :
  stands w L264 q i -> stands (tick cfg env w) L277 q i.
Proof. intros H. open_stands H t. close_stands. Qed.

Lemma step_L277 w q i :
  stands w L277 q i -> stands (tick cfg env w) L285 q i.
Proof. intros H. open_stands H t. close_stands. Qed.

Lemma step_L285 w q i :
  stands w L285 q i -> stands (tick cfg env w) L299 q i.
Proof.
  intros H. open_stands H t.
  destruct (next_delay _ _ _ _) as [d [|]]; close_stands.
Qed.

Lemma step_L310 w q i :
  stands w L310 q i -> stands (tick cfg env w) L208 q i.
Proof. intros H. open_stands H t. close_stands. Qed.

Lemma step_L314 w q i :
  stands w L314 q i -> stands (tick cfg env w) Finished q i.
Proof. intros H. open_stands H t. close_stands. Qed.

Lemma launch_phantom_out key agent url msg k post :
  snd (launch_phantom key agent url msg k post)
  = classify (fst (post (launch_request key agent url msg k))).
Proof.
  unfold launch_phantom. destruct (post _) as [o d]. reflexivity.
Qed.

(** The call and the logging of its outcome. *)
Lemma call_steps w q i :
  stands w L252 q i ->
  reaches cfg env w (fun w' => stands w' L277 q i).
Proof.
  intros H. apply reaches_step.
  destruct H as ((Hstop & Hpause) & t & Hth & Hpc & Hrows & Hpos).
  unfold tick at 1. rewrite Hth. unfold step. rewrite Hpc.
  pose proof (launch_phantom_out (api_key cfg) (agent_id cfg)
                (profileUrl (row t)) (message (row t))
                (entropy env (draws w)) (http_post env (posts w))) as Ho.
  pose proof (Hcalm (posts w)
                (launch_request (api_key cfg) (agent_id cfg)
                   (profileUrl (row t)) (message (row t))
                   (entropy env (draws w)))) as Hc.
  rewrite <- Ho in Hc.
  destruct (launch_phantom _ _ _ _ _ _) as [[c d] out]. simpl in Hc.
  destruct out as [[[f|]|e]|e]; try contradiction.
  - apply reaches_step. unfold tick at 1. simpl.
    apply reaches_step. apply reaches_here.
    unfold tick. simpl. close_stands.
  - apply reaches_step. apply reaches_here.
    unfold tick. simpl. close_stands.
Qed.

(** The closed-gate wait ends after its 1800 rounds. *)
Lemma wait_loop q i (m : nat) :
  forall k (w : World),
    (k + m = wait_rounds)%nat ->
    stands w (L230 k) q i ->
    reaches cfg env w (fun w' => stands w' L238 q i).
Proof.
  induction m as [|m IH]; intros k w' Hk H.
  - apply reaches_step, reaches_here.
    apply (step_L230_out _ _ _ k); [lia | exact H].
  - do 3 apply reaches_step.
    apply (IH (S k)); [lia|].
    apply step_L237, step_L233, step_L230_in; [lia | exact H].
Qed.

(** The pacing sleep ends: each round adds a quarter of a second. *)
Lemma pace_loop q i (m : nat) :
  forall w t,
    quiet w -> th w = Some t -> pc t = L299 -> rows t = q -> pos t = i ->
    (delay t - slept t <= inject_Z (Z.of_nat m) * (1 # 4))%Q ->
    reaches cfg env w (fun w' => stands w' L310 q i).
Proof.
  induction m as [|m IH]; intros w' t [Hstop Hpause] Hth Hpc Hrows Hpos Hd.
  - apply reaches_step, reaches_here.
    unfold tick. rewrite Hth. unfold step. rewrite Hpc.
    replace (Qlt_bool (slept t) (delay t)) with false; [close_stands|].
    symmetry. apply not_true_is_false. rewrite Qlt_bool_iff.
    intros Hlt. change (inject_Z (Z.of_nat 0)) with 0%Q in Hd. lra.
  - apply reaches_step.
    unfold tick at 1. rewrite Hth. unfold step. rewrite Hpc.
    destruct (Qlt_bool (slept t) (delay t)) eqn:Hlt.
    + rewrite Hstop.
      apply reaches_step. unfold tick at 1. simpl.
      unfold step at 1. simpl. rewrite Hpause.
      apply reaches_step. unfold tick at 1. simpl.
      unfold step at 1. simpl. rewrite Hstop.
      eapply IH; try reflexivity; try assumption.
      * split; assumption.
      * simpl. rewrite Nat2Z.inj_succ in Hd. unfold Z.succ in Hd.
        rewrite inject_Z_plus in Hd.
        change (inject_Z 1) with 1%Q in Hd. lra.
    + apply reaches_here. close_stands.
Qed.

Lemma pace_steps w q i :
  stands w L299 q i ->
  reaches cfg env w (fun w' => stands w' L310 q i).
Proof.
  intros (Hq & t & Hth & Hpc & Hrows & Hpos).
  apply (pace_loop q i
           (Z.to_nat (Qceiling ((delay t - slept t) * 4))) w t);
    try assumption.
  pose proof (Qle_ceiling ((delay t - slept t) * 4)) as Hc.
  assert (Hz : (inject_Z (Qceiling ((delay t - slept t) * 4))
                <= inject_Z (Z.of_nat
                     (Z.to_nat (Qceiling ((delay t - slept t) * 4)))))%Q).
  { rewrite <- Zle_Qle. lia. }
  lra.
Qed.

(** One turn of the [for] loop. *)
Lemma item_steps w q i r :
  stands w L208 q i -> q !! i = Some r ->
  reaches cfg env w (fun w' => stands w' L208 q (S i)).
Proof.
  intros H Hl.
  do 3 apply reaches_step.
  pose proof (step_L216 _ _ _ (step_L212 _ _ _ (step_L208_some _ _ _ _ H Hl)))
    as H220.
  apply (reaches_trans _ _ (fun w' => stands w' L241 q (S i))).
  { apply reaches_step.
    destruct (step_L220 _ _ _ H220) as [H241|H230].
    - apply reaches_here. exact H241.
    - apply (reaches_trans _ _ (fun w' => stands w' L238 q (S i))).
      + apply (wait_loop q (S i) wait_rounds 0%nat); [reflexivity | exact H230].
      + intros w' H238. apply reaches_step, reaches_here.
        apply step_L238. exact H238. }
  intros w1 H241. apply reaches_step.
  apply (reaches_trans _ _ (fun w' => stands w' L277 q (S i))).
  { apply call_steps, step_L241. exact H241. }
  intros w2 H277. do 2 apply reaches_step.
  apply (reaches_trans _ _ (fun w' => stands w' L310 q (S i))).
  { apply pace_steps, step_L285, step_L277. exact H277. }
  intros w3 H310. apply reaches_step, reaches_here.
  apply step_L310. exact H310.
Qed.

(** Without clicks the worker goes through its whole queue and returns. *)
Lemma run_to_end q (m : nat) :
  forall i (w : World),
    (i + m = length q)%nat ->
    stands w L208 q i ->
    reaches cfg env w (fun w' => stands w' Finished q (length q)).
Proof.
  induction m as [|m IH]; intros i w Hi H.
  - assert (i = length q) by lia. subst i.
    do 2 apply reaches_step. apply reaches_here.
    apply step_L314, step_L208_none; [exact H|].
    apply lookup_ge_None. lia.
  - destruct (q !! i) as [r|] eqn:Hl.
    + apply (reaches_trans _ _ (fun w' => stands w' L208 q (S i))).
      * apply (item_steps w q i r H Hl).
      * intros w' H'. apply (IH (S i)); [lia | exact H'].
    + apply lookup_ge_None in Hl. lia.
Qed.
End Uninterrupted.

Lemma finished_unstopped_dispatched_all (q : list Row) (w : World) (t : Thread) :
  run_inv_world q w ->
  th w = Some t -> pc t = Finished -> stop_event (ss w) = false ->
  dispatched w = map profileUrl q.
Proof.
  intros (t' & Hth' & _ & _ & _ & Hcalls & Hpc) Hth Hfin Hstop.
  rewrite Hth in Hth'. injection Hth' as <-.
  rewrite Hfin in Hpc. destruct Hpc as (_ & _ & [Hs|Hn]); [congruence|].
  unfold dispatched. rewrite Hth, Hcalls, Hn, firstn_all. reflexivity.
Qed.

(** C10: the queue is fixed by [start] and the worker never looks at the
    processed set again.  After an accepted [start], every run that returns
    without a [stop], however it was interleaved with pauses, has sent one
    request per row whose key was unprocessed at run start, duplicate keys
    included, in source order; and when the Action API never makes the worker
    raise, the run without clicks does return. *)
Theorem duplicates_dispatched_within_a_run
    cfg env (w0 w1 : World) (d : list Row) :
  df (ss w0) = Some d ->
  start cfg w0 = (w1, None) ->
  let queue := spec_run_queue d (processed_profiles (ss w0)) in
  (forall evs t,
     let w := exec cfg env evs w1 in
     th w = Some t -> pc t = Finished -> stop_event (ss w) = false ->
     dispatched w = map profileUrl queue)
  /\ (never_raises env ->
      exists n,
        let w := ticks cfg env n w1 in
        (exists t, th w = Some t /\ pc t = Finished)
        /\ stop_event (ss w) = false
        /\ dispatched w = map profileUrl queue).
Proof.
  intros Hd Hs queue. subst queue. rewrite <- unprocessed_spec.
  pose proof (start_run_inv cfg w0 w1 d Hd Hs) as Hinv.
  split.
  - intros evs t w Hth Hpc Hstop.
    apply (finished_unstopped_dispatched_all _ w t); try assumption.
    apply exec_run_inv. exact Hinv.
  - intros Hcalm.
    set (q := unprocessed d (processed_profiles (ss w0))) in *.
    assert (H0 : stands w1 L208 q 0).
    { rewrite (start_accepted cfg w0 w1 d Hd Hs). fold q.
      split; [split; reflexivity|]. eexists. split; [reflexivity|].
      repeat split. }
    destruct (run_to_end cfg env Hcalm q (length q) 0%nat w1 eq_refl H0)
      as (n & (Hstop & Hpause) & t & Hth & Hpc & _).
    exists n. simpl.
    split; [exists t; split; assumption|].
    split; [exact Hstop|].
    apply (finished_unstopped_dispatched_all q _ t); try assumption.
    apply exec_run_inv. exact Hinv.
Qed.

Lemma duplicates_dispatched_within_a_run_witness :
  let env := demo_env [("containerId"%string, Some "c-1"%string)] Written in
  let w0 := idle_world (Some [mkRow "u1" "first"; mkRow "u1" "second"])
                       ∅ monday_10 in
  exists n,
    let w := ticks demo_cfg env n (fst (start demo_cfg w0)) in
    (exists t, th w = Some t /\ pc t = Finished)
    /\ stop_event (ss w) = false
    /\ dispatched w
       = map profileUrl
           (spec_run_queue [mkRow "u1" "first"; mkRow "u1" "second"] ∅).
Proof.
  intros env w0.
  destruct (duplicates_dispatched_within_a_run demo_cfg env w0
              (fst (start demo_cfg w0))
              [mkRow "u1" "first"; mkRow "u1" "second"] eq_refl eq_refl)
    as [_ H].
  apply H. intros n q. simpl. exact I.
Defined.

(** The same input, step by step: when the second row of key "u1" is sent,
    "u1" is already in the processed set. *)
Example second_occurrence_sent_after_first_succeeded :
  let env := demo_env [("containerId"%string, Some "c-1"%string)] Written in
  let w1 := fst (start demo_cfg
                   (idle_world (Some [mkRow "u1" "first"; mkRow "u1" "second"])
                               ∅ monday_10)) in
  let before := ticks demo_cfg env 29 w1 in
  let after := ticks demo_cfg env 30 w1 in
  elements (processed_profiles (ss before)) = ["u1"%string]
  /\ dispatched before = ["u1"%string]
  /\ dispatched after = ["u1"; "u1"]%string
  /\ map log_status (logs (ss (ticks demo_cfg env 60 w1)))
     = [START; SUCCESS; START; SUCCESS].
Proof. vm_compute. repeat split; reflexivity. Qed.

(** ** The closed-gate wait, for every run *)

Lemma wait_round cfg env (k : nat) (w : World) (t : Thread) :
  quiet w -> th w = Some t -> pc t = L230 k -> (k < wait_rounds)%nat ->
  ticks cfg env 3 w = with_th (goto (L230 (S k)) t) (nap 50 w).
Proof.
  intros [Hstop Hpause] Hth Hpc Hk.
  assert (E1 : tick cfg env w = with_th (goto (L233 k) t) w).
  { unfold tick. rewrite Hth. unfold step. rewrite Hpc.
    apply Nat.ltb_lt in Hk. rewrite Hk, Hstop. reflexivity. }
  assert (E2 : tick cfg env (with_th (goto (L233 k) t) w)
               = with_th (goto (L237 k) t) w).
  { unfold tick. simpl. unfold step. simpl. rewrite Hpause. reflexivity. }
  rewrite !ticks_S, E1, E2. reflexivity.
Qed.

Lemma wait_loop_clock cfg env (m : nat) :
  forall (k : nat) (w : World) (t : Thread),
    quiet w -> th w = Some t -> pc t = L230 k ->
    (k + m = wait_rounds)%nat ->
    th (ticks cfg env (3 * m + 1) w) = Some (goto L238 t)
    /\ clock (ticks cfg env (3 * m + 1) w) = clock w + 50 * Z.of_nat m
    /\ naps (ticks cfg env (3 * m + 1) w) = (naps w + m)%nat
    /\ ss (ticks cfg env (3 * m + 1) w) = ss w.
Proof.
  induction m as [|m IH]; intros k w t Hq Hth Hpc Hk.
  - change (3 * 0 + 1)%nat with 1%nat. rewrite ticks_S.
    change (ticks cfg env 0 (tick cfg env w)) with (tick cfg env w).
    unfold tick. rewrite Hth. unfold step. rewrite Hpc.
    replace (k <? wait_rounds)%nat with false
      by (symmetry; apply Nat.ltb_ge; lia).
    cbn [th clock naps ss with_th]. repeat split; lia.
  - replace (3 * S m + 1)%nat with (3 + (3 * m + 1))%nat by lia.
    rewrite ticks_add, (wait_round cfg env k w t Hq Hth Hpc) by lia.
    destruct (IH (S k) (with_th (goto (L230 (S k)) t) (nap 50 w))
                (goto (L230 (S k)) t)) as (Ht & Hc & Hn & Hs);
      [exact Hq | reflexivity | reflexivity | lia |].
    rewrite Ht, Hc, Hn, Hs. cbn [th clock naps ss with_th nap goto pc].
    repeat split; lia.
Qed.

(** Whenever the worker finds the gate closed and nobody clicks, it logs
    WAIT, sleeps 1800 half-seconds and then logs START 900 s later, without
    a second look at the gate; its next step sends the request. *)
Lemma closed_gate_wait_lasts_900_seconds cfg env (w : World) (t : Thread) :
  quiet w -> th w = Some t -> pc t = L220 ->
  is_within_working_hours cfg (datetime_now (clock w)) = false ->
  exists w',
    ticks cfg env (3 * wait_rounds + 4) w = w'
    /\ th w' = Some (goto L252 (set_started (clock w + 900 * 100) t))
    /\ clock w' = clock w + 900 * 100
    /\ naps w' = (naps w + 1800)%nat
    /\ logs (ss w')
       = logs (ss w) ++ [wait_row (clock w);
                         start_row (clock w + 900 * 100) (profileUrl (row t))].
Proof.
  intros Hq Hth Hpc Hgate.
  replace (3 * wait_rounds + 4)%nat
    with (1 + ((3 * wait_rounds + 1) + 2))%nat by lia.
  rewrite ticks_add.
  assert (H1 : ticks cfg env 1 w
               = with_th (goto (L230 0) t)
                   (with_ss (add_log (wait_row (clock w)) (ss w)) w)).
  { rewrite ticks_S. unfold tick. rewrite Hth.
    unfold step. rewrite Hpc, Hgate. reflexivity. }
  rewrite H1, ticks_add.
  remember (with_th (goto (L230 0) t)
              (with_ss (add_log (wait_row (clock w)) (ss w)) w)) as w1 eqn:E1.
  assert (Hq1 : quiet w1) by (subst w1; exact Hq).
  assert (Hth1 : th w1 = Some (goto (L230 0) t)) by (subst w1; reflexivity).
  destruct (wait_loop_clock cfg env wait_rounds 0%nat w1 (goto (L230 0) t)
              Hq1 Hth1 eq_refl eq_refl) as (Ht & Hc & Hn & Hs).
  remember (ticks cfg env (3 * wait_rounds + 1) w1) as w2 eqn:E2.
  assert (Hc2 : clock w2 = clock w + 900 * 100).
  { rewrite Hc. subst w1. reflexivity. }
  assert (Hn2 : naps w2 = (naps w + 1800)%nat).
  { rewrite Hn. subst w1. reflexivity. }
  assert (Hs2 : ss w2 = add_log (wait_row (clock w)) (ss w)).
  { rewrite Hs. subst w1. reflexivity. }
  clear E1 E2 Hq1 Hth1 Hc Hn Hs.
  destruct Hq as [Hstop Hpause].
  assert (T1 : tick cfg env w2 = with_th (goto L241 t) w2).
  { unfold tick. rewrite Ht. unfold step. cbn [pc goto].
    rewrite Hs2. cbn [stop_event add_log]. rewrite Hstop. reflexivity. }
  eexists. split.
  { rewrite !ticks_S, T1. unfold tick. cbn [th with_th].
    unfold step. cbn [pc goto]. reflexivity. }
  unfold ticks, exec. simpl. rewrite Hc2, Hn2, Hs2. simpl.
  rewrite <- app_assoc. repeat split.
Qed.

(** * Further properties of the script *)

(** ** Working-hours gate *)

(** X1: the gate is closed on every Saturday and Sunday, for every window
    whose end hour is not after its start hour, and, the sidebar allowing no
    end hour above 23, during the hour from 23:00 on. *)
Theorem gate_closed_cases (cfg : Config) (now : datetime) :
  5 <= weekday now
  \/ end_hour cfg <= start_hour cfg
  \/ (end_hour cfg <= 23 /\ 23 <= hour now) ->
  is_within_working_hours cfg now = false.
Proof.
  intros H. unfold is_within_working_hours.
  destruct (5 <=? weekday now) eqn:Hw; [reflexivity|].
  apply Z.leb_gt in Hw. apply andb_false_iff.
  destruct (start_hour cfg <=? hour now) eqn:Hs; [right|left; reflexivity].
  apply Z.leb_le in Hs. apply Z.ltb_ge. lia.
Qed.

Lemma gate_closed_cases_witness :
  is_within_working_hours demo_cfg {| weekday := 2; hour := 23 |} = false
  /\ is_within_working_hours
       {| api_key := "k"; agent_id := "a"; start_hour := 22; end_hour := 6;
          min_delay := 1; max_delay := 2; extended_break_chance := 0;
          extended_break_min := 1; extended_break_max := 2 |}
       {| weekday := 0; hour := 23 |} = false.
Proof.
  split.
  - apply (gate_closed_cases demo_cfg). right. right. simpl. lia.
  - apply gate_closed_cases. right. left. simpl. lia.
Defined.

(** ** Persistence ledger *)

(** X2: loading after a save that succeeded returns the saved set, whatever
    the file held before; after a save whose [open] raised, loading returns
    what the old file gives; after a save that broke while writing, loading
    returns the empty set. *)
Theorem save_then_load (s : gset string) (f : FileState) :
  load_processed_profiles_from_disk
    (save_processed_profiles_to_disk s Written f) = s
  /\ load_processed_profiles_from_disk
       (save_processed_profiles_to_disk s OpenRaised f)
     = load_processed_profiles_from_disk f
  /\ load_processed_profiles_from_disk
       (save_processed_profiles_to_disk s DumpRaised f) = ∅.
Proof.
  repeat split. simpl. apply list_to_set_elements_L.
Qed.

(** ** Time formatting *)

(** X3: for a non-negative number of seconds [secs_to_hms] shows seconds
    alone below one minute, minutes and seconds below one hour, and hours,
    minutes and seconds from one hour on; the minutes and seconds shown are
    below 60 and the parts shown add up to the input. *)
Theorem secs_to_hms_cases (sec : Z) :
  0 <= sec ->
  let h := sec / 3600 in
  let m := (sec mod 3600) / 60 in
  let s := sec mod 60 in
  sec = 3600 * h + 60 * m + s
  /\ 0 <= m < 60 /\ 0 <= s < 60
  /\ secs_to_hms sec =
       (if sec <? 60 then pretty s +:+ "s"
        else if sec <? 3600 then pretty m +:+ "m " +:+ pretty s +:+ "s"
        else pretty h +:+ "h " +:+ pretty m +:+ "m " +:+ pretty s +:+ "s")
  /\ (sec < 60 -> s = sec)
  /\ (sec < 3600 -> m = sec / 60).
Proof.
  intros Hsec h m s.
  assert (Hs : 0 <= s < 60) by (apply Z.mod_pos_bound; lia).
  assert (Hr : 0 <= sec mod 3600 < 3600) by (apply Z.mod_pos_bound; lia).
  assert (Hm : 0 <= m < 60).
  { subst m. split; [apply Z.div_pos; lia|].
    apply Z.div_lt_upper_bound; lia. }
  assert (Hh : 0 <= h) by (apply Z.div_pos; lia).
  assert (Hsum : sec = 3600 * h + 60 * m + s).
  { subst h m s.
    pose proof (Z.div_mod sec 3600 ltac:(lia)) as E1.
    pose proof (Z.div_mod (sec mod 3600) 60 ltac:(lia)) as E2.
    assert (E3 : (sec mod 3600) mod 60 = sec mod 60).
    { apply Z.mod_mod_divide. exists 60. reflexivity. }
    lia. }
  split; [exact Hsum|]. split; [exact Hm|]. split; [exact Hs|].
  split; [|split].
  - unfold secs_to_hms. fold h m s.
    destruct (sec <? 60) eqn:E60.
    + apply Z.ltb_lt in E60.
      assert (h = 0) by lia. assert (m = 0) by lia.
      replace (0 <? h) with false by (symmetry; apply Z.ltb_ge; lia).
      replace (0 <? m) with false by (symmetry; apply Z.ltb_ge; lia).
      reflexivity.
    + apply Z.ltb_ge in E60.
      destruct (sec <? 3600) eqn:E3600.
      * apply Z.ltb_lt in E3600.
        assert (h = 0) by lia.
        replace (0 <? h) with false by (symmetry; apply Z.ltb_ge; lia).
        replace (0 <? m) with true by (symmetry; apply Z.ltb_lt; lia).
        reflexivity.
      * apply Z.ltb_ge in E3600.
        replace (0 <? h) with true by (symmetry; apply Z.ltb_lt; lia).
        reflexivity.
  - intros Hlt. subst s. apply Z.mod_small. lia.
  - intros Hlt. subst m. rewrite Z.mod_small by lia. reflexivity.
Qed.

Lemma secs_to_hms_cases_witness :
  secs_to_hms 3725 =
    (if 3725 <? 60 then pretty (3725 mod 60) +:+ "s"
     else if 3725 <? 3600
          then pretty ((3725 mod 3600) / 60) +:+ "m "
               +:+ pretty (3725 mod 60) +:+ "s"
          else pretty (3725 / 3600) +:+ "h "
               +:+ pretty ((3725 mod 3600) / 60) +:+ "m "
               +:+ pretty (3725 mod 60) +:+ "s").
Proof.
  destruct (secs_to_hms_cases 3725 ltac:(lia)) as (_ & _ & _ & H & _).
  exact H.
Defined.

(** ** Pacing model *)

(** X4: with the delay bounds in order and a non-negative extended minimum,
    every draw gives a delay of at least [min_delay] and at most
    [max_delay + extended_break_max]; without an extended break it is at
    most [max_delay]. *)
Theorem next_delay_bounds (cfg : Config) (k1 k2 k3 : N) :
  min_delay cfg <= max_delay cfg ->
  0 <= extended_break_min cfg <= extended_break_max cfg ->
  let d := fst (next_delay cfg k1 k2 k3) in
  (inject_Z (min_delay cfg) <= d)%Q
  /\ (d <= inject_Z (max_delay cfg) + inject_Z (extended_break_max cfg))%Q
  /\ (snd (next_delay cfg k1 k2 k3) = false ->
      (d <= inject_Z (max_delay cfg))%Q).
Proof.
  intros Hd [He0 He] d. subst d. unfold next_delay.
  destruct (random_uniform_range (min_delay cfg) (max_delay cfg) k1 Hd)
    as [Hb1 Hb2].
  destruct (random_uniform_range (extended_break_min cfg)
              (extended_break_max cfg) k3 He) as [Hx1 Hx2].
  assert (H0 : (0 <= inject_Z (extended_break_min cfg))%Q).
  { change 0%Q with (inject_Z 0). rewrite <- Zle_Qle. exact He0. }
  assert (H1 : (0 <= inject_Z (extended_break_max cfg))%Q).
  { change 0%Q with (inject_Z 0). rewrite <- Zle_Qle. lia. }
  destruct (Qlt_bool _ _); simpl.
  - split; [lra|]. split; [lra|]. discriminate.
  - split; [lra|]. split; [lra|]. intros _. lra.
Qed.

Lemma next_delay_bounds_witness :
  (inject_Z 45 <= fst (next_delay (mkConfig "k" "a" 9 17 45 120 15 300 600)
                         7 8 9))%Q.
Proof.
  apply (next_delay_bounds (mkConfig "k" "a" 9 17 45 120 15 300 600) 7 8 9);
    simpl; lia.
Defined.

(** ** Action Client *)

Lemma random_randint_range (a b : Z) (k : N) :
  a <= b -> a <= random_randint a b k <= b.
Proof.
  intros H. unfold random_randint.
  assert (Hpos : 0 < b - a + 1) by lia.
  pose proof (Z.mod_pos_bound (Z.of_N k) (b - a + 1) Hpos) as Hm.
  revert Hm. generalize (Z.of_N k mod (b - a + 1)). intros r Hm. lia.
Qed.

(** X5: whatever the generator draws, the request goes to the launch URL of
    the configured agent with a 30 s timeout, carries the API key in the
    [X-Phantombuster-Key-1] header, names the row's profile and message, and
    asks for a delay of 3 to 8 with at most 20 requests per day. *)
Theorem launch_request_shape
    (key agent url msg : string) (k : N) (post : Request -> PostOutcome * N) :
  let q := fst (fst (launch_phantom key agent url msg k post)) in
  req_url q = launch_url agent
  /\ req_timeout q = 30
  /\ ("X-Phantombuster-Key-1"%string, key) ∈ req_headers q
  /\ specificProfileUrl (req_arguments q) = url
  /\ arg_message (req_arguments q) = msg
  /\ 3 <= arg_delay (req_arguments q) <= 8
  /\ maxRequestsPerDay (req_arguments q) = 20
  /\ randomizeDelay (req_arguments q) = true.
Proof.
  intros q. subst q. unfold launch_phantom.
  destruct (post _) as [o d]. simpl.
  repeat split; try reflexivity.
  - apply list_elem_of_In. simpl. auto.
  - apply (random_randint_range 3 8 k). lia.
  - apply (random_randint_range 3 8 k). lia.
Qed.

(** ** Rolling average *)




(** ** Buttons *)

(** X7: each button is disabled exactly when its handler would leave the
    session as it is. *)
Theorem disabled_iff_no_effect (s : SessionState) :
  (pause_disabled s = true <-> pause s = s)
  /\ (resume_disabled s = true <-> resume s = s)
  /\ (stop_disabled s = true <-> stop s = s).
Proof.
  unfold pause_disabled, resume_disabled, stop_disabled, pause, resume, stop.
  destruct s as [d p l r pa st stt c to a pe se].
  destruct r, pa; simpl; repeat split; intros H; try reflexivity;
    try discriminate; try (injection H; intros; discriminate).
Qed.

(** X8: on a Running engine whose pause gate is open, Pause reports Paused
    and shuts the gate, and Pause followed by Resume gives back the very
    same world; Pause and Resume never touch the worker, the file or the
    processed set. *)
Theorem pause_resume_round_trip (w : World) :
  status (ss w) = Running ->
  pause_event (ss w) = true ->
  status (ss (ui Pause w)) = Paused
  /\ pause_event (ss (ui Pause w)) = false
  /\ ui Resume (ui Pause w) = w
  /\ th (ui Pause w) = th w
  /\ processed_profiles (ss (ui Pause w)) = processed_profiles (ss w).
Proof.
  intros Hst Hpe.
  destruct w as [s t dk c dr po wr na].
  destruct s as [d p l r pa st stt co to a pe se].
  unfold status in Hst. simpl in *. subst pe.
  destruct r, pa; simpl in Hst; try discriminate;
    try (destruct st; discriminate).
  repeat split.
Qed.

Lemma pause_resume_round_trip_witness :
  let w := fst (start demo_cfg
                  (idle_world (Some [mkRow "u1" "a"]) ∅ monday_10)) in
  ui Resume (ui Pause w) = w.
Proof.
  intros w.
  destruct (pause_resume_round_trip w eq_refl eq_refl) as (_ & _ & H & _).
  exact H.
Defined.

(** ** Reruns of the script *)

(** X9: [_init_state] gives a session that holds nothing the defaults with
    the pause gate open, and on an existing session it changes nothing but
    the pause gate, which it opens: after Pause and one more run of the
    script the engine still reports Paused, yet a worker waiting at a pause
    gate (lines 212, 233, 302) goes through at its next step. *)
Theorem rerun_opens_pause_gate cfg env (w : World) (t : Thread) :
  status (ss w) = Running ->
  th w = Some t ->
  let w' := rerun (ui Pause w) in
  status (ss (ui Pause w)) = Paused
  /\ status (ss w') = Paused
  /\ pause_event (ss w') = true
  /\ status (_init_state None) = Idle
  /\ pause_event (_init_state None) = true
  /\ (pc t = L212 -> th (tick cfg env w') = Some (goto L216 t))
  /\ (forall k, pc t = L233 k -> th (tick cfg env w') = Some (goto (L237 k) t))
  /\ (pc t = L302 -> th (tick cfg env w') = Some (goto L306 t)).
Proof.
  intros Hst Hth w'. subst w'.
  destruct w as [s t0 dk c dr po wr na].
  destruct s as [d p l r pa st stt co to a pe se].
  unfold status in Hst. simpl in *. subst t0.
  destruct r, pa; simpl in Hst; try discriminate;
    try (destruct st; discriminate).
  unfold rerun, load_once, tick, step. simpl.
  destruct (decide (p = ∅)); simpl;
    (repeat split; try (intros k Hk); try (intros Hk);
     rewrite ?Hk; reflexivity).
Qed.

Lemma rerun_opens_pause_gate_witness :
  let w := ticks demo_cfg (demo_env [] Written) 1
             (fst (start demo_cfg
                     (idle_world (Some [mkRow "u1" "a"]) ∅ monday_10))) in
  status (ss (rerun (ui Pause w))) = Paused
  /\ pause_event (ss (rerun (ui Pause w))) = true.
Proof.
  intros w.
  destruct (th w) as [t|] eqn:Hth; [|vm_compute in Hth; discriminate].
  destruct (rerun_opens_pause_gate demo_cfg (demo_env [] Written) w t
              eq_refl Hth) as (_ & H1 & H2 & _).
  split; assumption.
Defined.

(** ** What a run keeps *)

Lemma tick_logs_grow cfg env (w : World) :
  logs (ss w) `prefix_of` logs (ss (tick cfg env w)).
Proof.
  unfold tick. destruct (th w) as [t|]; [|reflexivity].
  unfold step. destruct (pc t); repeat case_match; simpl;
    try reflexivity; apply prefix_app_r; reflexivity.
Qed.

Lemma ui_logs (w : World) (c : Cmd) : logs (ss (ui c w)) = logs (ss w).
Proof.
  destruct c; simpl; unfold pause, resume, stop; repeat case_match;
    reflexivity.
Qed.

(** X10: the log of a run is append-only: under every environment and every
    interleaving of clicks and worker steps, the log before is a prefix of
    the log after. *)
Theorem log_is_append_only cfg env (evs : list Event) (w : World) :
  logs (ss w) `prefix_of` logs (ss (exec cfg env evs w)).
Proof.
  revert w. induction evs as [|e evs IH]; intros w; [reflexivity|].
  simpl. etransitivity; [|apply IH].
  destruct e as [c|]; simpl.
  - rewrite ui_logs. reflexivity.
  - apply tick_logs_grow.
Qed.

(** X11: the worker never writes what the buttons own: no number of worker
    steps changes the loaded CSV, the total, the start time, the pause and
    stop events or the paused and stopped flags. *)
Theorem worker_leaves_controls cfg env (n : nat) (w : World) :
  let s := ss w in
  let s' := ss (ticks cfg env n w) in
  df s' = df s /\ total s' = total s /\ start_time s' = start_time s
  /\ pause_event s' = pause_event s /\ stop_event s' = stop_event s
  /\ is_paused s' = is_paused s /\ is_stopped s' = is_stopped s.
Proof.
  revert w. induction n as [|n IH]; intros w; [simpl; repeat split|].
  rewrite ticks_S. specialize (IH (tick cfg env w)). simpl in IH |- *.
  assert (H1 : let s := ss w in let s' := ss (tick cfg env w) in
               df s' = df s /\ total s' = total s
               /\ start_time s' = start_time s
               /\ pause_event s' = pause_event s
               /\ stop_event s' = stop_event s
               /\ is_paused s' = is_paused s /\ is_stopped s' = is_stopped s).
  { unfold tick. destruct (th w) as [t|]; [|simpl; repeat split].
    unfold step. destruct (pc t); repeat case_match; simpl; repeat split;
      congruence. }
  simpl in H1.
  destruct IH as (A1 & A2 & A3 & A4 & A5 & A6 & A7).
  destruct H1 as (B1 & B2 & B3 & B4 & B5 & B6 & B7).
  repeat split; congruence.
Qed.





(** ** Pause *)

Lemma tick_pause_rel cfg env (w0 : World) (t0 : Thread) (w : World) :
  pause_rel w0 t0 w -> pause_rel w0 t0 (tick cfg env w).
Proof.
  intros (Hp & Hs & t & Hth & Hcalls).
  unfold pause_rel, tick. rewrite Hth. unfold step. rewrite ?Hp, ?Hs.
  remember (past_pause_gate (pc t0)) as b0 eqn:Eb0. clear Eb0.
  destruct (pc t) eqn:E; simpl in Hcalls.
  12: {
    pose proof (sent_url_launch (api_key cfg) (agent_id cfg)
                  (profileUrl (row t)) (message (row t))
                  (entropy env (draws w)) (http_post env (posts w))) as Hu.
    destruct (launch_phantom _ _ _ _ _ _) as [[c d] out]. simpl in Hu.
    destruct Hcalls as [[Hc Hrow]|(_ & Hf & _)]; [|discriminate].
    destruct (Hrow eq_refl) as [Hb0 Hr0].
    destruct out as [r|e]; simpl; rewrite ?Hp, ?Hs;
      (split; [reflexivity|]); (split; [reflexivity|]);
      eexists; (split; [reflexivity|]); simpl; right;
      (split; [exact Hb0|]); (split; [reflexivity|]);
      exists c; rewrite Hc, <- Hr0; auto. }
  all: repeat case_match; simpl; rewrite ?Hp, ?Hs;
    try ((split; [congruence|]); (split; [congruence|]);
         eexists; (split; [reflexivity|]); simpl;
         intuition (try discriminate; try congruence; eauto); fail).
  all: (split; [congruence|]); (split; [congruence|]);
    exists t; rewrite E; simpl; (split; [exact Hth|]);
    intuition (try discriminate; try congruence; eauto).
Qed.

(** X13: while the pause gate stays shut and nobody clicks, the worker
    sends at most one more request, however many steps it takes: none when
    it stands at or before a pause gate, and otherwise at most that of the
    row it has already taken past the gate. *)
Theorem pause_holds_the_queue cfg env (w : World) (t : Thread) (n : nat) :
  th w = Some t ->
  pause_event (ss w) = false ->
  stop_event (ss w) = false ->
  let w' := ticks cfg env n w in
  dispatched w' = dispatched w
  \/ (past_pause_gate (pc t) = 1%nat
      /\ dispatched w' = dispatched w ++ [profileUrl (row t)]).
Proof.
  intros Hth Hp Hs w'.
  assert (H0 : pause_rel w t w).
  { split; [exact Hp|]. split; [exact Hs|]. exists t.
    split; [exact Hth|]. left. split; [reflexivity|]. auto. }
  assert (Hn : pause_rel w t w').
  { subst w'. clear Hth Hp Hs. revert H0. generalize w at 2 4 as v.
    induction n as [|n IH]; intros v Hv; [exact Hv|].
    rewrite ticks_S. apply IH, tick_pause_rel. exact Hv. }
  destruct Hn as (_ & _ & t' & Hth' & Hcalls).
  unfold dispatched. rewrite Hth, Hth'.
  destruct Hcalls as [[Hc _]|(Hb & _ & c & Hc & Hu)].
  - left. rewrite Hc. reflexivity.
  - right. split; [exact Hb|]. rewrite Hc, map_app. simpl.
    rewrite Hu. reflexivity.
Qed.

Lemma pause_holds_the_queue_witness :
  let w := ui Pause
             (ticks demo_cfg (demo_env [] Written) 12
                (fst (start demo_cfg
                        (idle_world (Some [mkRow "u1" "a"; mkRow "u2" "b"])
                                    ∅ monday_10)))) in
  dispatched (ticks demo_cfg (demo_env [] Written) 500 w) = dispatched w
  \/ exists u,
       dispatched (ticks demo_cfg (demo_env [] Written) 500 w)
       = dispatched w ++ [u].
Proof.
  intros w.
  destruct (th w) as [t|] eqn:Hth; [|vm_compute in Hth; discriminate].
  destruct (pause_holds_the_queue demo_cfg (demo_env [] Written) w t 500
              Hth eq_refl eq_refl) as [H|[_ H]].
  - left. exact H.
  - right. eexists. exact H.
Defined.

(** ** Progress bar *)



(** ** Log, requests and processed set *)

Lemma urls_of_snoc (st : Status) (l : list LogRow) (r : LogRow) :
  urls_of st (l ++ [r]) = urls_of st l ++ urls_of st [r].
Proof. unfold urls_of. apply omap_app. Qed.

Lemma ui_ledger_inv (p0 : gset string) (w : World) (c : Cmd) :
  ledger_inv p0 w -> ledger_inv p0 (ui c w).
Proof.
  intros (t & Hth & H). exists t. split; [destruct c; exact Hth|].
  rewrite ui_logs, ui_processed. exact H.
Qed.

Lemma tick_ledger_inv cfg env (p0 : gset string) (w : World) :
  ledger_inv p0 w -> ledger_inv p0 (tick cfg env w).
Proof.
  intros (t & Hth & Hstart & Hproc & Hsucc & Hlast).
  unfold tick. rewrite Hth. unfold step, ledger_inv.
  unfold announced, unsaved in *.
  destruct (pc t) eqn:E; simpl in Hstart, Hproc;
    rewrite ?app_nil_r in Hstart.
  14: {
    eexists. split; [reflexivity|]. simpl. rewrite app_nil_r.
    split; [exact Hstart|].
    split; [set_solver|].
    split; [exact Hsucc|]. discriminate. }
  13: {
    destruct (res t) as [[fields|]|e]; eexists; (split; [reflexivity|]);
      simpl; rewrite ?urls_of_snoc; simpl; rewrite ?app_nil_r.
    - split; [exact Hstart|]. split.
      + rewrite list_to_set_app_L. simpl. set_solver.
      + split; [|discriminate].
        intros u Hin. apply elem_of_app in Hin as [Hin|Hin]; [auto|].
        apply list_elem_of_singleton in Hin as ->. apply Hlast. reflexivity.
    - split; [exact Hstart|]. split; [exact Hproc|].
      split; [exact Hsucc|]. discriminate.
    - split; [exact Hstart|]. split; [exact Hproc|].
      split; [exact Hsucc|]. discriminate. }
  12: {
    pose proof (sent_url_launch (api_key cfg) (agent_id cfg)
                  (profileUrl (row t)) (message (row t))
                  (entropy env (draws w)) (http_post env (posts w))) as Hu.
    destruct (launch_phantom _ _ _ _ _ _) as [[c d] out]. simpl in Hu.
    destruct out as [r|e]; eexists; (split; [reflexivity|]); simpl;
      rewrite map_app, app_nil_r; simpl; rewrite Hu;
      (split; [exact Hstart|]); (split; [exact Hproc|]);
      (split; [intros u Hin; apply elem_of_app; left; auto|]);
      intros _; apply elem_of_app; right; left. }
  11: {
    eexists. split; [reflexivity|]. simpl.
    rewrite !urls_of_snoc, Hstart. simpl. rewrite ?app_nil_r.
    split; [reflexivity|]. split; [exact Hproc|].
    split; [exact Hsucc|]. discriminate. }
  all: repeat case_match; try (eexists; (split; [reflexivity|])); simpl;
    rewrite ?urls_of_snoc; simpl; rewrite ?app_nil_r;
    try ((split; [assumption|]); (split; [assumption|]);
         (split; [assumption|]); discriminate).
  all: exists t; rewrite E; rewrite ?app_nil_r;
    (split; [exact Hth|]); (split; [assumption|]); (split; [assumption|]);
    (split; [assumption|]); discriminate.
Qed.



(** ** Displayed average *)





Ltac split_step :=
  repeat match goal with
    | |- context [if ?c then _ else _] => destruct c eqn:?
    | |- context [match res ?t with _ => _ end] =>
        destruct (res t) as [[?|]|?]
    | |- context [launch_phantom ?a ?b ?c ?d ?e ?f] =>
        destruct (launch_phantom a b c d e f) as [[? ?] [?|?]]
    | |- context [next_delay ?a ?b ?c ?d] =>
        destruct (next_delay a b c d) as [? [|]]
    | |- context [rows ?t !! pos ?t] => destruct (rows t !! pos t)
    end.





(** ** Ledger on disk against the set in memory *)

Lemma tick_disk_below cfg env (w : World) :
  load_processed_profiles_from_disk (disk w) ⊆ processed_profiles (ss w) ->
  load_processed_profiles_from_disk (disk (tick cfg env w))
    ⊆ processed_profiles (ss (tick cfg env w)).
Proof.
  intros H. unfold tick. destruct (th w) as [t|]; [|exact H].
  unfold step. destruct (pc t).
  14: {
    simpl. destruct (file_write env (writes w)); simpl.
    - rewrite list_to_set_elements_L. reflexivity.
    - set_solver.
    - set_solver. }
  all: split_step; simpl; exact H.
Qed.

Lemma tick_disk_level cfg env (w : World) :
  (forall n, file_write env n = Written) ->
  load_processed_profiles_from_disk (disk w) = processed_profiles (ss w) ->
  load_processed_profiles_from_disk (disk (tick cfg env w))
    = processed_profiles (ss (tick cfg env w)).
Proof.
  intros Hw H. unfold tick. destruct (th w) as [t|]; [|exact H].
  unfold step. destruct (pc t).
  14: { simpl. rewrite Hw. simpl. apply list_to_set_elements_L. }
  all: split_step; simpl; exact H.
Qed.

Lemma ui_disk (w : World) (c : Cmd) : disk (ui c w) = disk w.
Proof. destruct c; reflexivity. Qed.

(** X17: if the file agrees with the set in memory when a run begins, then
    under every environment and every interleaving the file never holds a
    key that the memory lacks; and if no write of the file fails, file and
    memory agree at every moment of the run. *)
Theorem ledger_never_ahead_of_memory cfg env (w : World) (evs : list Event) :
  load_processed_profiles_from_disk (disk w) = processed_profiles (ss w) ->
  let w' := exec cfg env evs w in
  load_processed_profiles_from_disk (disk w') ⊆ processed_profiles (ss w')
  /\ ((forall n, file_write env n = Written) ->
      load_processed_profiles_from_disk (disk w') = processed_profiles (ss w')).
Proof.
  intros H w'. subst w'. split.
  - apply (exec_preserves cfg env
             (fun v => load_processed_profiles_from_disk (disk v)
                       ⊆ processed_profiles (ss v))).
    + intros v c Hv. rewrite ui_disk, ui_processed. exact Hv.
    + intros v. apply tick_disk_below.
    + rewrite H. reflexivity.
  - intros Hw.
    apply (exec_preserves cfg env
             (fun v => load_processed_profiles_from_disk (disk v)
                       = processed_profiles (ss v))).
    + intros v c Hv. rewrite ui_disk, ui_processed. exact Hv.
    + intros v. apply tick_disk_level. exact Hw.
    + exact H.
Qed.

Lemma ledger_never_ahead_of_memory_witness :
  let w := fst (start demo_cfg
                  (idle_world (Some [mkRow "u1" "a"; mkRow "u2" "b"])
                              ∅ monday_10)) in
  let w' := exec demo_cfg (demo_env [] DumpRaised) (repeat Tick 40) w in
  load_processed_profiles_from_disk (disk w') ⊆ processed_profiles (ss w').
Proof.
  intros w.
  apply (ledger_never_ahead_of_memory demo_cfg (demo_env [] DumpRaised) w
           (repeat Tick 40)).
  vm_compute. reflexivity.
Defined.

(** ** Pacing sleep *)

Lemma pace_round cfg env (w : World) (t : Thread) :
  quiet w -> th w = Some t -> pc t = L299 ->
  Qlt_bool (slept t) (delay t) = true ->
  ticks cfg env 3 w
  = with_th (goto L299 (set_slept (slept t + (1 # 4))%Q t)) (nap 25 w).
Proof.
  intros [Hstop Hpause] Hth Hpc Hlt.
  assert (E1 : tick cfg env w = with_th (goto L302 t) w).
  { unfold tick. rewrite Hth. unfold step. rewrite Hpc, Hlt, Hstop.
    reflexivity. }
  assert (E2 : tick cfg env (with_th (goto L302 t) w)
               = with_th (goto L306 t) w).
  { unfold tick. simpl. unfold step. simpl. rewrite Hpause. reflexivity. }
  assert (E3 : tick cfg env (with_th (goto L306 t) w)
               = with_th (goto L299 (set_slept (slept t + (1 # 4))%Q t))
                   (nap 25 w)).
  { unfold tick. simpl. unfold step. simpl. rewrite Hstop. reflexivity. }
  rewrite !ticks_S, E1, E2, E3. reflexivity.
Qed.

Lemma pace_loop_clock cfg env (m : nat) :
  forall (w : World) (t : Thread),
    quiet w -> th w = Some t -> pc t = L299 ->
    (delay t - slept t <= inject_Z (Z.of_nat m) * (1 # 4))%Q ->
    exists (k : nat) (t' : Thread),
      th (ticks cfg env (3 * k + 1) w) = Some t'
      /\ pc t' = L310
      /\ delay t' = delay t
      /\ (slept t' == slept t + inject_Z (Z.of_nat k) * (1 # 4))%Q
      /\ clock (ticks cfg env (3 * k + 1) w) = clock w + 25 * Z.of_nat k
      /\ naps (ticks cfg env (3 * k + 1) w) = (naps w + k)%nat
      /\ (delay t <= slept t')%Q
      /\ ((0 < k)%nat -> (slept t' - (1 # 4) < delay t)%Q).
Proof.
  induction m as [|m IH]; intros w t Hq Hth Hpc Hd.
  - exists 0%nat, (goto L310 t).
    assert (Hlt : Qlt_bool (slept t) (delay t) = false).
    { apply not_true_is_false. rewrite Qlt_bool_iff. intros Hlt.
      change (inject_Z (Z.of_nat 0)) with 0%Q in Hd. lra. }
    change (3 * 0 + 1)%nat with 1%nat. rewrite ticks_S.
    change (ticks cfg env 0 (tick cfg env w)) with (tick cfg env w).
    unfold tick. rewrite Hth. unfold step. rewrite Hpc, Hlt.
    cbn [th clock naps with_th goto pc delay slept].
    change (inject_Z (Z.of_nat 0)) with 0%Q in *.
    repeat split; try lia; try lra.
  - destruct (Qlt_bool (slept t) (delay t)) eqn:Hlt.
    + destruct (IH (with_th (goto L299 (set_slept (slept t + (1 # 4))%Q t))
                      (nap 25 w))
                   (goto L299 (set_slept (slept t + (1 # 4))%Q t)))
        as (k & t' & Ht' & Hpc' & Hdl & Hsl & Hck & Hnp & Hge & Hlast);
        [exact Hq | reflexivity | reflexivity | |].
      { cbn [delay slept goto set_slept].
        rewrite Nat2Z.inj_succ in Hd. unfold Z.succ in Hd.
        rewrite inject_Z_plus in Hd.
        change (inject_Z 1) with 1%Q in Hd. lra. }
      cbn [delay slept goto set_slept clock naps nap with_th] in *.
      exists (S k), t'.
      replace (3 * S k + 1)%nat with (3 + (3 * k + 1))%nat by lia.
      rewrite ticks_add, (pace_round cfg env w t Hq Hth Hpc Hlt).
      rewrite Nat2Z.inj_succ. unfold Z.succ. rewrite inject_Z_plus.
      change (inject_Z 1) with 1%Q.
      split; [exact Ht'|]. split; [exact Hpc'|]. split; [exact Hdl|].
      split; [rewrite Hsl; ring|].
      split; [rewrite Hck; lia|]. split; [rewrite Hnp; lia|].
      split; [exact Hge|].
      intros _. destruct k as [|k].
      * change (inject_Z (Z.of_nat 0)) with 0%Q in Hsl.
        apply Qlt_bool_iff in Hlt. rewrite Hsl. lra.
      * apply Hlast. lia.
    + exists 0%nat, (goto L310 t).
      change (3 * 0 + 1)%nat with 1%nat. rewrite ticks_S.
      change (ticks cfg env 0 (tick cfg env w)) with (tick cfg env w).
      unfold tick. rewrite Hth. unfold step. rewrite Hpc, Hlt.
      cbn [th clock naps with_th goto pc delay slept].
      change (inject_Z (Z.of_nat 0)) with 0%Q in *.
      repeat split; try lia; try lra.
      apply not_true_iff_false in Hlt. rewrite Qlt_bool_iff in Hlt.
      apply Qnot_lt_le. exact Hlt.
Qed.

(** X18: when nobody clicks, the pacing sleep that starts with [slept = 0]
    takes a whole number [k] of quarter-second sleeps and nothing else: [k]
    quarter seconds are at least the delay, and less than a quarter second
    more than it. *)
Theorem pacing_sleep_covers_delay cfg env (w : World) (t : Thread) :
  quiet w -> th w = Some t -> pc t = L299 -> (slept t == 0)%Q ->
  exists (k : nat) (t' : Thread),
    th (ticks cfg env (3 * k + 1) w) = Some t'
    /\ pc t' = L310
    /\ clock (ticks cfg env (3 * k + 1) w) = clock w + 25 * Z.of_nat k
    /\ naps (ticks cfg env (3 * k + 1) w) = (naps w + k)%nat
    /\ (delay t <= inject_Z (Z.of_nat k) * (1 # 4))%Q
    /\ ((0 < k)%nat ->
        (inject_Z (Z.of_nat k) * (1 # 4) < delay t + (1 # 4))%Q).
Proof.
  intros Hq Hth Hpc H0.
  destruct (pace_loop_clock cfg env
              (Z.to_nat (Qceiling ((delay t - slept t) * 4))) w t Hq Hth Hpc)
    as (k & t' & Ht' & Hpc' & Hdl & Hsl & Hck & Hnp & Hge & Hlast).
  { pose proof (Qle_ceiling ((delay t - slept t) * 4)) as Hc.
    assert (Hz : (inject_Z (Qceiling ((delay t - slept t) * 4))
                  <= inject_Z (Z.of_nat
                       (Z.to_nat (Qceiling ((delay t - slept t) * 4)))))%Q).
    { rewrite <- Zle_Qle. lia. }
    lra. }
  exists k, t'.
  split; [exact Ht'|]. split; [exact Hpc'|]. split; [exact Hck|].
  split; [exact Hnp|].
  rewrite Hsl, H0 in Hge.
  split; [lra|].
  intros Hk. specialize (Hlast Hk). rewrite Hsl, H0 in Hlast. lra.
Qed.

Lemma pacing_sleep_covers_delay_witness :
  let w := ticks demo_cfg (demo_env [] Written) 10
             (fst (start demo_cfg
                     (idle_world (Some [mkRow "u1" "a"]) ∅ monday_10))) in
  exists (k : nat) (t' : Thread),
    th (ticks demo_cfg (demo_env [] Written) (3 * k + 1) w) = Some t'
    /\ pc t' = L310.
Proof.
  intros w.
  destruct (th w) as [t|] eqn:Hth; [|vm_compute in Hth; discriminate].
  assert (Ht : pc t = L299 /\ (slept t == 0)%Q).
  { vm_compute in Hth. injection Hth as <-. split; reflexivity. }
  destruct (pacing_sleep_covers_delay demo_cfg (demo_env [] Written) w t
              (conj eq_refl eq_refl) Hth (proj1 Ht) (proj2 Ht))
    as (k & t' & H1 & H2 & _).
  exists k, t'. split; assumption.
Defined.

(** ** ETA during a run *)



(** ** Restart *)

(** X20: if the file agrees with the memory when a run begins and no write
    of the file fails, then at any moment of the run a new session (one that
    holds nothing: [_init_state], then lines 169-170) recovers from the file
    exactly the processed set of the session in progress. *)
Theorem restart_recovers_processed_set
    cfg env (w : World) (evs : list Event) :
  load_processed_profiles_from_disk (disk w) = processed_profiles (ss w) ->
  (forall n, file_write env n = Written) ->
  let w' := exec cfg env evs w in
  processed_profiles (load_once (disk w') (_init_state None))
  = processed_profiles (ss w').
Proof.
  intros H Hw w'.
  assert (Hl : load_processed_profiles_from_disk (disk w')
               = processed_profiles (ss w')).
  { subst w'.
    apply (exec_preserves cfg env
             (fun v => load_processed_profiles_from_disk (disk v)
                       = processed_profiles (ss v))).
    - intros v c Hv. rewrite ui_disk, ui_processed. exact Hv.
    - intros v. apply tick_disk_level. exact Hw.
    - exact H. }
  unfold load_once. simpl.
  destruct (decide ((∅ : gset string) = ∅)) as [_|Hne];
    [|contradiction].
  simpl. exact Hl.
Qed.

Lemma restart_recovers_processed_set_witness :
  let w := fst (start demo_cfg
                  (idle_world (Some [mkRow "u1" "a"; mkRow "u2" "b"])
                              ∅ monday_10)) in
  let w' := exec demo_cfg (demo_env [] Written) (repeat Tick 40) w in
  processed_profiles (load_once (disk w') (_init_state None))
  = processed_profiles (ss w').
Proof.
  intros w.
  apply (restart_recovers_processed_set demo_cfg (demo_env [] Written) w
           (repeat Tick 40)).
  - vm_compute. reflexivity.
  - intros n. reflexivity.
Defined.

(** ** Runs in which every call fails, or every call succeeds *)

Lemma launch_phantom_classify key agent url msg k post :
  snd (launch_phantom key agent url msg k post)
  = classify (fst (post (launch_request key agent url msg k))).
Proof.
  unfold launch_phantom. destruct (post _) as [o d]. reflexivity.
Qed.

Lemma all_fail_never_raises (env : Env) : all_fail env -> never_raises env.
Proof.
  intros H n q. destruct (H n q) as [e ->]. exact I.
Qed.


Lemma tick_fail_inv cfg env (w : World) :
  all_fail env -> fail_inv w -> fail_inv (tick cfg env w).
Proof.
  intros Hf (t & Hth & Hs & Hne & Hres).
  unfold tick. rewrite Hth. unfold step, fail_inv.
  destruct (pc t) eqn:E; try contradiction.
  12: {
    pose proof (launch_phantom_classify (api_key cfg) (agent_id cfg)
                  (profileUrl (row t)) (message (row t))
                  (entropy env (draws w)) (http_post env (posts w))) as Ho.
    destruct (Hf (posts w)
                (launch_request (api_key cfg) (agent_id cfg)
                   (profileUrl (row t)) (message (row t))
                   (entropy env (draws w)))) as [e He].
    rewrite He in Ho.
    destruct (launch_phantom _ _ _ _ _ _) as [[c d] out]. simpl in Ho.
    subst out. eexists. split; [reflexivity|]. simpl.
    split; [exact Hs|]. split; [discriminate|].
    intros _. eauto. }
  12: {
    destruct (Hres eq_refl) as [e He]. rewrite He.
    eexists. split; [reflexivity|]. simpl.
    rewrite urls_of_snoc, Hs. simpl.
    split; [reflexivity|]. split; discriminate. }
  all: split_step; try (eexists; (split; [reflexivity|])); simpl;
    rewrite ?urls_of_snoc, ?Hs; simpl;
    try ((split; [reflexivity|]); split; discriminate).
  all: exists t; rewrite E; (split; [exact Hth|]);
    (split; [first [exact Hs | reflexivity]|]); split; discriminate.
Qed.

Lemma ui_fail_inv (w : World) (c : Cmd) : fail_inv w -> fail_inv (ui c w).
Proof.
  intros (t & Hth & H). exists t. split; [destruct c; exact Hth|].
  rewrite ui_logs. exact H.
Qed.


Lemma unprocessed_same (d : list Row) (p p' : gset string) :
  (forall r, r ∈ d -> (profileUrl r ∈ p <-> profileUrl r ∈ p')) ->
  unprocessed d p = unprocessed d p'.
Proof.
  unfold unprocessed. induction d as [|r d IH]; intros H; [reflexivity|].
  rewrite !filter_cons.
  assert (Hr : profileUrl r ∈ p <-> profileUrl r ∈ p') by (apply H; left).
  rewrite IH by (intros x Hx; apply H; right; exact Hx).
  destruct (decide (profileUrl r ∉ p)), (decide (profileUrl r ∉ p'));
    tauto.
Qed.


(** X21: when every call is refused (a status other than 200, or a
    [RequestException]), the run without clicks still goes through its whole
    queue and returns: every queued row is sent once, every one is counted,
    the processed set is what it was at run start, and so the next run
    would queue the same rows again. *)
Theorem failed_items_stay_unprocessed
    cfg env (w0 w1 : World) (d : list Row) :
  df (ss w0) = Some d ->
  start cfg w0 = (w1, None) ->
  all_fail env ->
  let queue := unprocessed d (processed_profiles (ss w0)) in
  exists n,
    let w := ticks cfg env n w1 in
    (exists t, th w = Some t /\ pc t = Finished)
    /\ dispatched w = map profileUrl queue
    /\ completed (ss w) = total (ss w)
    /\ processed_profiles (ss w) = processed_profiles (ss w0)
    /\ unprocessed d (processed_profiles (ss w)) = queue.
Proof.
  intros Hd Hs Hfail queue.
  pose proof (start_run_inv cfg w0 w1 d Hd Hs) as Hinv.
  assert (H0 : stands w1 L208 queue 0).
  { rewrite (start_accepted cfg w0 w1 d Hd Hs). fold queue.
    split; [split; reflexivity|]. eexists. split; [reflexivity|].
    repeat split. }
  destruct (run_to_end cfg env (all_fail_never_raises env Hfail) queue
              (length queue) 0%nat w1 eq_refl H0)
    as (n & (Hstop & Hpause) & t & Hth & Hpc & _).
  exists n. simpl.
  set (w := ticks cfg env n w1) in *.
  assert (Hrun : run_inv_world queue w) by (apply exec_run_inv; exact Hinv).
  assert (Hled : ledger_inv (processed_profiles (ss w0)) w).
  { apply (exec_preserves cfg env (ledger_inv (processed_profiles (ss w0)))
             (fun v c => ui_ledger_inv _ v c) (tick_ledger_inv cfg env _)).
    rewrite (start_accepted cfg w0 w1 d Hd Hs). eexists.
    split; [reflexivity|]. simpl. split; [reflexivity|].
    split; [set_solver|]. split; [|discriminate].
    intros u Hu. inversion Hu. }
  assert (Hfl : fail_inv w).
  { apply (exec_preserves cfg env fail_inv
             (fun v c => ui_fail_inv v c)
             (fun v => tick_fail_inv cfg env v Hfail)).
    rewrite (start_accepted cfg w0 w1 d Hd Hs). eexists.
    split; [reflexivity|]. simpl. split; [reflexivity|].
    split; discriminate. }
  assert (Hproc : processed_profiles (ss w) = processed_profiles (ss w0)).
  { destruct Hled as (t1 & Hth1 & _ & Hp & _).
    destruct Hfl as (t2 & Hth2 & Hnil & _).
    rewrite Hth in Hth1. injection Hth1 as <-.
    unfold unsaved in Hp. rewrite Hpc, Hnil in Hp. simpl in Hp.
    set_solver. }
  split; [exists t; split; assumption|].
  split; [apply (finished_unstopped_dispatched_all queue w t); assumption|].
  split.
  { destruct Hrun as (t1 & Hth1 & _ & Htot & _ & _ & Hp).
    rewrite Hth in Hth1. injection Hth1 as <-. rewrite Hpc in Hp.
    destruct Hp as (_ & Hc & [Hst|Hlen]); [congruence|].
    rewrite Hc, Htot, Hlen. reflexivity. }
  split; [exact Hproc|]. rewrite Hproc. reflexivity.
Qed.

Lemma failed_items_stay_unprocessed_witness :
  let env := {| http_post := fun _ _ =>
                  (Responded {| status_code := 429; text := "slow down";
                                resp_json := inl JNotDict |}, 20%N);
                entropy := fun _ => 0%N;
                file_write := fun _ => Written |} in
  let w0 := idle_world (Some [mkRow "u1" "a"; mkRow "u2" "b"]) ∅ monday_10 in
  exists n,
    processed_profiles (ss (ticks demo_cfg env n (fst (start demo_cfg w0))))
    = ∅.
Proof.
  intros env w0.
  destruct (failed_items_stay_unprocessed demo_cfg env w0
              (fst (start demo_cfg w0)) [mkRow "u1" "a"; mkRow "u2" "b"]
              eq_refl eq_refl) as (n & _ & _ & _ & H & _).
  { intros k q. eexists. reflexivity. }
  exists n. exact H.
Defined.



(** ** Closed gate *)

Lemma closed_gate_wait_lasts_900_seconds_witness :
  let w := ticks demo_cfg (demo_env [] Written) 3
             (fst (start demo_cfg
                     (idle_world (Some [mkRow "u1" "a"]) ∅ saturday_10))) in
  exists w',
    ticks demo_cfg (demo_env [] Written) (3 * wait_rounds + 4) w = w'
    /\ clock w' = clock w + 900 * 100.
Proof.
  intros w.
  destruct (th w) as [t|] eqn:Hth; [|vm_compute in Hth; discriminate].
  assert (Hpc : pc t = L220).
  { vm_compute in Hth. injection Hth as <-. reflexivity. }
  destruct (closed_gate_wait_lasts_900_seconds demo_cfg
              (demo_env [] Written) w t (conj eq_refl eq_refl) Hth Hpc
              eq_refl) as (w' & H1 & _ & H2 & _).
  exists w'. split; assumption.
Defined.
